(** * Homework helper: the Astro DB tables and the server actions

    A shallow embedding of [db/tables.ts] (the three tables) and of the
    server actions ([createHomeworkRequest] ... [listHomeworkJobs]), with
    the properties of the actions proved over it.

    Conventions of the embedding:
    - a table is the list of its rows, in insertion order; a query is a
      function of that list;
    - a handler is a computation in the monad [Action]: it threads the
      world (database, wall clock) and either returns a value or throws an
      [ActionError]; a throw does not roll anything back;
    - [new Date()] reads the wall clock, two reads may differ;
    - a Date is its number of milliseconds, an integer. *)

From Stdlib Require Import ZArith QArith List String Bool Lia.
Import ListNotations.
Close Scope Q_scope.
Open Scope string_scope.
Open Scope Z_scope.

Set Implicit Arguments.

(** ** Values *)

(** A JavaScript [number]: a finite value (every double is a rational) or
    one of the three special values. *)
Inductive number : Type :=
| Finite (q : Q)
| PosInfinity
| NegInfinity
| NaN.

(** [a < b] on JavaScript numbers; any comparison with [NaN] is false. *)
Definition number_lt (a b : number) : bool :=
  match a, b with
  | NaN, _ | _, NaN => false
  | Finite x, Finite y => negb (Qle_bool y x)
  | Finite _, PosInfinity => true
  | Finite _, NegInfinity => false
  | PosInfinity, _ => false
  | NegInfinity, NegInfinity => false
  | NegInfinity, _ => true
  end.

Definition number_gt (a b : number) : bool := number_lt b a.

(** The values of the [json] columns and of [z.any()]. *)
#[local] Unset Elimination Schemes.
Inductive Json : Type :=
| JNull
| JBool (b : bool)
| JNumber (n : number)
| JString (s : string)
| JArray (items : list Json)
| JObject (entries : list (string * Json)).
#[local] Set Elimination Schemes.

(** [z.record(z.any())] and [z.array(z.any())]. *)
Definition JsonRecord : Type := list (string * Json).
Definition JsonArray : Type := list Json.

(** A [json] column holds the JSON text of the value written to it, and
    what is read back, also by [.returning()], is the text parsed:
    [JSON.parse(JSON.stringify(v))]. JSON has no notation for [NaN] and the
    infinities, which are written as [null]; every other value comes back
    as it was. *)
Fixpoint json_column (v : Json) : Json :=
  match v with
  | JNull => JNull
  | JBool b => JBool b
  | JNumber (Finite q) => JNumber (Finite q)
  | JNumber _ => JNull
  | JString s => JString s
  | JArray items => JArray (map json_column items)
  | JObject entries =>
      JObject (map (fun kv => match kv with (k, x) => (k, json_column x) end) entries)
  end.

Definition json_array (v : JsonArray) : JsonArray := map json_column v.

Definition json_record (v : JsonRecord) : JsonRecord :=
  map (fun kv => match kv with (k, x) => (k, json_column x) end) v.

(** A Date, as milliseconds since the epoch. *)
Definition Date : Type := Z.

(** ** The enumerated text columns *)

Inductive RequestStatus : Type := open | answered | closed.
Inductive ResponseSource : Type := source_ai | source_user | source_teacher | source_other.
Inductive JobType : Type := explanation | step_by_step | hint_only | full_solution | job_other.
Inductive JobStatus : Type := pending | completed | failed.

Definition RequestStatus_eqb (a b : RequestStatus) : bool :=
  match a, b with
  | open, open | answered, answered | closed, closed => true
  | _, _ => false
  end.

(** ** Rows of the three tables (db/tables.ts) *)

Module HomeworkRequest.
Record row : Type := mk {
  id : Z;
  userId : string;
  subject : option string;
  gradeLevel : option string;
  topic : option string;
  title : option string;
  questionText : string;
  attachments : option JsonRecord;
  status : RequestStatus;
  createdAt : Date;
  updatedAt : Date
}.

Definition set_subject (v : string) (r : row) : row :=
  mk (id r) (userId r) (Some v) (gradeLevel r) (topic r) (title r)
     (questionText r) (attachments r) (status r) (createdAt r) (updatedAt r).
Definition set_gradeLevel (v : string) (r : row) : row :=
  mk (id r) (userId r) (subject r) (Some v) (topic r) (title r)
     (questionText r) (attachments r) (status r) (createdAt r) (updatedAt r).
Definition set_topic (v : string) (r : row) : row :=
  mk (id r) (userId r) (subject r) (gradeLevel r) (Some v) (title r)
     (questionText r) (attachments r) (status r) (createdAt r) (updatedAt r).
Definition set_title (v : string) (r : row) : row :=
  mk (id r) (userId r) (subject r) (gradeLevel r) (topic r) (Some v)
     (questionText r) (attachments r) (status r) (createdAt r) (updatedAt r).
Definition set_questionText (v : string) (r : row) : row :=
  mk (id r) (userId r) (subject r) (gradeLevel r) (topic r) (title r)
     v (attachments r) (status r) (createdAt r) (updatedAt r).
(** [attachments] is a [json] column. *)
Definition set_attachments (v : JsonRecord) (r : row) : row :=
  mk (id r) (userId r) (subject r) (gradeLevel r) (topic r) (title r)
     (questionText r) (Some (json_record v)) (status r) (createdAt r) (updatedAt r).
Definition set_status (v : RequestStatus) (r : row) : row :=
  mk (id r) (userId r) (subject r) (gradeLevel r) (topic r) (title r)
     (questionText r) (attachments r) v (createdAt r) (updatedAt r).
Definition set_updatedAt (v : Date) (r : row) : row :=
  mk (id r) (userId r) (subject r) (gradeLevel r) (topic r) (title r)
     (questionText r) (attachments r) (status r) (createdAt r) v.

(** The row as the table holds it once written. *)
Definition written (r : row) : row :=
  mk (id r) (userId r) (subject r) (gradeLevel r) (topic r) (title r)
     (questionText r) (option_map json_record (attachments r)) (status r)
     (createdAt r) (updatedAt r).
End HomeworkRequest.

Module HomeworkResponse.
Record row : Type := mk {
  id : Z;
  requestId : Z;
  userId : option string;
  source : ResponseSource;
  answerText : string;
  steps : option JsonArray;
  isAccepted : bool;
  rating : option number;
  feedback : option string;
  createdAt : Date
}.

Definition set_isAccepted (v : bool) (r : row) : row :=
  mk (id r) (requestId r) (userId r) (source r) (answerText r) (steps r)
     v (rating r) (feedback r) (createdAt r).
Definition set_rating (v : number) (r : row) : row :=
  mk (id r) (requestId r) (userId r) (source r) (answerText r) (steps r)
     (isAccepted r) (Some v) (feedback r) (createdAt r).
Definition set_feedback (v : string) (r : row) : row :=
  mk (id r) (requestId r) (userId r) (source r) (answerText r) (steps r)
     (isAccepted r) (rating r) (Some v) (createdAt r).

(** The row as the table holds it once written: [steps] is a [json]
    column. *)
Definition written (r : row) : row :=
  mk (id r) (requestId r) (userId r) (source r) (answerText r)
     (option_map json_array (steps r)) (isAccepted r) (rating r) (feedback r)
     (createdAt r).
End HomeworkResponse.

Module HomeworkJob.
Record row : Type := mk {
  id : Z;
  requestId : option Z;
  userId : option string;
  jobType : JobType;
  input : option JsonRecord;
  output : option JsonRecord;
  status : JobStatus;
  createdAt : Date
}.

(** The row as the table holds it once written: [input] and [output] are
    [json] columns. *)
Definition written (r : row) : row :=
  mk (id r) (requestId r) (userId r) (jobType r)
     (option_map json_record (input r)) (option_map json_record (output r))
     (status r) (createdAt r).
End HomeworkJob.

(** ** The database *)

Record Database : Type := mkDatabase {
  requests : list HomeworkRequest.row;
  responses : list HomeworkResponse.row;
  jobs : list HomeworkJob.row
}.

Definition empty_db : Database := mkDatabase [] [] [].

(** A table of the database: how to read and replace its rows, its
    primary key column [id], and what a row becomes when it is written
    (the [json] columns). *)
Record Table (R : Type) : Type := mkTable {
  rows_of : Database -> list R;
  with_rows : list R -> Database -> Database;
  pk : R -> Z;
  written : R -> R
}.

Definition HomeworkRequests : Table HomeworkRequest.row :=
  mkTable requests
          (fun l d => mkDatabase l (responses d) (jobs d))
          HomeworkRequest.id
          HomeworkRequest.written.

Definition HomeworkResponses : Table HomeworkResponse.row :=
  mkTable responses
          (fun l d => mkDatabase (requests d) l (jobs d))
          HomeworkResponse.id
          HomeworkResponse.written.

Definition HomeworkJobs : Table HomeworkJob.row :=
  mkTable jobs
          (fun l d => mkDatabase (requests d) (responses d) l)
          HomeworkJob.id
          HomeworkJob.written.

(** The value an auto-incremented primary key takes on the next insert: one
    more than the largest key of the table (no action deletes a row, so the
    largest key is also the last one handed out). *)
Definition next_id (ids : list Z) : Z := 1 + fold_right Z.max 0 ids.

(** The primary key constraint. *)
Definition pk_unique {R : Type} (t : Table R) (d : Database) : Prop :=
  NoDup (map (pk t) (rows_of t d)).

(** ** The world a handler runs in *)

Record World : Type := mkWorld {
  db : Database;
  wall : nat -> Date;   (* what the n-th reading of the clock returns *)
  reads : nat           (* how many readings were made so far *)
}.

(** ** Errors (astro:actions) *)

Inductive ActionErrorCode : Type := BAD_REQUEST | UNAUTHORIZED | NOT_FOUND.

(** [ActionError] with its code and message; [ActionInputError] is what
    the action wrapper throws when the input does not parse. *)
Inductive ActionError : Type :=
| ActionErr (code : ActionErrorCode) (message : string)
| ActionInputError.

Definition error_code (e : ActionError) : ActionErrorCode :=
  match e with
  | ActionErr c _ => c
  | ActionInputError => BAD_REQUEST
  end.

(** ** The monad of handlers *)

Inductive Outcome (A : Type) : Type :=
| Ok (a : A)
| Throw (e : ActionError).
Arguments Throw {A} e.

Definition Action (A : Type) : Type := World -> Outcome A * World.

Definition ret {A : Type} (a : A) : Action A := fun w => (Ok a, w).

Definition throw {A : Type} (e : ActionError) : Action A := fun w => (Throw e, w).

Definition bind {A B : Type} (m : Action A) (k : A -> Action B) : Action B :=
  fun w =>
    match m w with
    | (Ok a, w') => k a w'
    | (Throw e, w') => (Throw e, w')
    end.

Declare Scope action_scope.
Delimit Scope action_scope with action.
Notation "x <- m ;; k" := (bind m (fun x => k))
  (at level 61, m at next level, right associativity) : action_scope.
Notation "m ;;; k" := (bind m (fun _ => k))
  (at level 61, right associativity) : action_scope.
Open Scope action_scope.

(** [new Date()] *)
Definition newDate : Action Date :=
  fun w => (Ok (wall w (reads w)), mkWorld (db w) (wall w) (S (reads w))).

(** [db.select().from(t).where(cond)] *)
Definition select {R : Type} (t : Table R) (cond : R -> bool) : Action (list R) :=
  fun w => (Ok (filter cond (rows_of t (db w))), w).

(** [db.insert(t).values(v).returning()]; [values] is given the key the
    table assigns to the new row, and the row returned is the row as
    written. *)
Definition insert {R : Type} (t : Table R) (values : Z -> R) : Action (list R) :=
  fun w =>
    let rows := rows_of t (db w) in
    let r := written t (values (next_id (map (pk t) rows))) in
    (Ok [r], mkWorld (with_rows t (rows ++ [r])%list (db w)) (wall w) (reads w)).

(** [db.update(t).set(s).where(cond).returning()] *)
Definition update {R : Type} (t : Table R) (set : R -> R) (cond : R -> bool)
  : Action (list R) :=
  fun w =>
    let rows := rows_of t (db w) in
    (Ok (map set (filter cond rows)),
     mkWorld (with_rows t (map (fun r => if cond r then set r else r) rows) (db w))
             (wall w) (reads w)).

(** ** Request context and result envelopes *)

Module App.
Record User : Type := mkUser { id : string }.
Record Locals : Type := mkLocals { user : option User }.
End App.

Record ActionAPIContext : Type := mkContext { locals : option App.Locals }.

(** [{ success: true, data: ... }] *)
Record Success (D : Type) : Type := mkSuccess { success : bool; data : D }.

Record RequestData : Type := mkRequestData { request : option HomeworkRequest.row }.
Record ResponseData : Type := mkResponseData { response : option HomeworkResponse.row }.
Record JobData : Type := mkJobData { job : option HomeworkJob.row }.
Record ListData (R : Type) : Type := mkListData { items : list R; total : nat }.

(** ** Input schemas (astro:schema)

    The type of an input record carries the shape of the schema
    ([z.string()], [z.number().int()] as [Z], [z.enum], [.optional()] as
    [option]); what remains to check at run time are the bounds and the
    refinements. *)

Definition z_string_min (n : nat) (s : string) : bool := (n <=? String.length s)%nat.

(** [z.number().min(lo).max(hi)]: [z.number()] refuses [NaN], [min] refuses
    [v < lo] and [max] refuses [v > hi]. *)
Definition z_number_min_max (lo hi : number) (v : number) : bool :=
  match v with
  | NaN => false
  | _ => negb (number_lt v lo) && negb (number_gt v hi)
  end.

Definition z_optional {A : Type} (check : A -> bool) (o : option A) : bool :=
  match o with
  | Some v => check v
  | None => true
  end.

(** [x !== undefined] *)
Definition defined {A : Type} (o : option A) : bool :=
  match o with
  | Some _ => true
  | None => false
  end.

(** [x ?? d] *)
Definition nullish {A : Type} (o : option A) (d : A) : A :=
  match o with
  | Some v => v
  | None => d
  end.

(** [...(x !== undefined ? { field: x } : {})] inside [.set({ ... })] *)
Definition spread {A R : Type} (o : option A) (set_field : A -> R -> R) (r : R) : R :=
  match o with
  | Some v => set_field v r
  | None => r
  end.

(** [defineAction({ input, handler })]: the input is parsed against the
    schema first; the handler runs on the parsed input only, and a parse
    failure is thrown as an [ActionInputError] without running it. *)
Definition defineAction {I O : Type}
    (input : I -> bool) (handler : I -> ActionAPIContext -> Action O)
  : I -> ActionAPIContext -> Action O :=
  fun unparsed context =>
    if input unparsed then handler unparsed context else throw ActionInputError.

(** ** The two guards *)

(** [context.locals?.user] *)
Definition context_user (context : ActionAPIContext) : option App.User :=
  match locals context with
  | Some l => App.user l
  | None => None
  end.

Definition requireUser (context : ActionAPIContext) : Action App.User :=
  let user := context_user context in
  match user with
  | None =>
      throw (ActionErr UNAUTHORIZED "You must be signed in to perform this action.")
  | Some u => ret u
  end.

Definition getOwnedRequest (requestId : Z) (userId : string)
  : Action HomeworkRequest.row :=
  rows <- select HomeworkRequests
            (fun r => (HomeworkRequest.id r =? requestId)
                      && String.eqb (HomeworkRequest.userId r) userId) ;;
  match hd_error rows with
  | None => throw (ActionErr NOT_FOUND "Homework request not found.")
  | Some request => ret request
  end.

(** ** The actions *)

Module CreateHomeworkRequest.
Record input : Type := mkInput {
  subject : option string;
  gradeLevel : option string;
  topic : option string;
  title : option string;
  questionText : string;
  attachments : option JsonRecord
}.

Definition schema (i : input) : bool := z_string_min 1 (questionText i).

Definition handler (input : input) (context : ActionAPIContext)
  : Action (Success RequestData) :=
  user <- requireUser context ;;
  now <- newDate ;;
  returning <- insert HomeworkRequests (fun id =>
    HomeworkRequest.mk id (App.id user) (subject input) (gradeLevel input)
      (topic input) (title input) (questionText input) (attachments input)
      open now now) ;;
  ret (mkSuccess true (mkRequestData (hd_error returning))).
End CreateHomeworkRequest.

Definition createHomeworkRequest :=
  defineAction CreateHomeworkRequest.schema CreateHomeworkRequest.handler.

Module UpdateHomeworkRequest.
Record input : Type := mkInput {
  id : Z;
  subject : option string;
  gradeLevel : option string;
  topic : option string;
  title : option string;
  questionText : option string;
  attachments : option JsonRecord;
  status : option RequestStatus
}.

Definition refine (i : input) : bool :=
  defined (subject i) || defined (gradeLevel i) || defined (topic i)
  || defined (title i) || defined (questionText i) || defined (attachments i)
  || defined (status i).

Definition schema (i : input) : bool := refine i.

(** The argument of [.set(...)]: the supplied fields, then [updatedAt]. *)
Definition set (input : input) (now : Date) (r : HomeworkRequest.row)
  : HomeworkRequest.row :=
  HomeworkRequest.set_updatedAt now
    (spread (status input) HomeworkRequest.set_status
    (spread (attachments input) HomeworkRequest.set_attachments
    (spread (questionText input) HomeworkRequest.set_questionText
    (spread (title input) HomeworkRequest.set_title
    (spread (topic input) HomeworkRequest.set_topic
    (spread (gradeLevel input) HomeworkRequest.set_gradeLevel
    (spread (subject input) HomeworkRequest.set_subject r))))))).

Definition handler (input : input) (context : ActionAPIContext)
  : Action (Success RequestData) :=
  user <- requireUser context ;;
  getOwnedRequest (id input) (App.id user) ;;;
  now <- newDate ;;
  returning <- update HomeworkRequests (set input now)
                 (fun r => HomeworkRequest.id r =? id input) ;;
  ret (mkSuccess true (mkRequestData (hd_error returning))).
End UpdateHomeworkRequest.

Definition updateHomeworkRequest :=
  defineAction UpdateHomeworkRequest.schema UpdateHomeworkRequest.handler.

Module ListHomeworkRequests.
Record fields : Type := mkFields { status : option RequestStatus }.
Definition input : Type := option fields.

Definition schema (i : input) : bool := true.

Definition handler (input : input) (context : ActionAPIContext)
  : Action (Success (ListData HomeworkRequest.row)) :=
  user <- requireUser context ;;
  let filters :=
    ([fun r => String.eqb (HomeworkRequest.userId r) (App.id user)]
     ++ match input with
        | Some {| status := Some s |} =>
            [fun r => RequestStatus_eqb (HomeworkRequest.status r) s]
        | _ => []
        end)%list in
  requests <- select HomeworkRequests (fun r => forallb (fun f => f r) filters) ;;
  ret (mkSuccess true (mkListData requests (List.length requests))).
End ListHomeworkRequests.

Definition listHomeworkRequests :=
  defineAction ListHomeworkRequests.schema ListHomeworkRequests.handler.

Module AddHomeworkResponse.
Record input : Type := mkInput {
  requestId : Z;
  answerText : string;
  steps : option JsonArray;
  isAccepted : option bool;
  rating : option number;
  feedback : option string;
  source : option ResponseSource
}.

Definition schema (i : input) : bool :=
  z_string_min 1 (answerText i)
  && z_optional (z_number_min_max (Finite 1) (Finite 5)) (rating i).

(** [if (input.isAccepted)]: [undefined] and [false] are falsy. *)
Definition truthy (o : option bool) : bool := nullish o false.

Definition handler (input : input) (context : ActionAPIContext)
  : Action (Success ResponseData) :=
  user <- requireUser context ;;
  getOwnedRequest (requestId input) (App.id user) ;;;
  createdAt <- newDate ;;
  returning <- insert HomeworkResponses (fun id =>
    HomeworkResponse.mk id (requestId input) (Some (App.id user))
      (nullish (source input) source_ai) (answerText input) (steps input)
      (nullish (isAccepted input) false) (rating input) (feedback input)
      createdAt) ;;
  (if truthy (isAccepted input)
   then
     updatedAt <- newDate ;;
     update HomeworkRequests
       (fun r => HomeworkRequest.set_updatedAt updatedAt
                   (HomeworkRequest.set_status answered r))
       (fun r => HomeworkRequest.id r =? requestId input) ;;;
     ret tt
   else ret tt) ;;;
  ret (mkSuccess true (mkResponseData (hd_error returning))).
End AddHomeworkResponse.

Definition addHomeworkResponse :=
  defineAction AddHomeworkResponse.schema AddHomeworkResponse.handler.

Module UpdateHomeworkResponse.
Record input : Type := mkInput {
  id : Z;
  requestId : Z;
  isAccepted : option bool;
  rating : option number;
  feedback : option string
}.

Definition refine (i : input) : bool :=
  defined (isAccepted i) || defined (rating i) || defined (feedback i).

Definition schema (i : input) : bool :=
  z_optional (z_number_min_max (Finite 1) (Finite 5)) (rating i) && refine i.

Definition set (input : input) (r : HomeworkResponse.row) : HomeworkResponse.row :=
  spread (feedback input) HomeworkResponse.set_feedback
    (spread (rating input) HomeworkResponse.set_rating
    (spread (isAccepted input) HomeworkResponse.set_isAccepted r)).

Definition handler (input : input) (context : ActionAPIContext)
  : Action (Success ResponseData) :=
  user <- requireUser context ;;
  getOwnedRequest (requestId input) (App.id user) ;;;
  existing <- select HomeworkResponses
                (fun r => (HomeworkResponse.id r =? id input)
                          && (HomeworkResponse.requestId r =? requestId input)) ;;
  match hd_error existing with
  | None => throw (ActionErr NOT_FOUND "Response not found.")
  | Some _ =>
      returning <- update HomeworkResponses (set input)
                     (fun r => HomeworkResponse.id r =? id input) ;;
      match isAccepted input with
      | Some accepted =>
          updatedAt <- newDate ;;
          update HomeworkRequests
            (fun r => HomeworkRequest.set_updatedAt updatedAt
                        (HomeworkRequest.set_status
                           (if accepted then answered else open) r))
            (fun r => HomeworkRequest.id r =? requestId input) ;;;
          ret tt
      | None => ret tt
      end ;;;
      ret (mkSuccess true (mkResponseData (hd_error returning)))
  end.
End UpdateHomeworkResponse.

Definition updateHomeworkResponse :=
  defineAction UpdateHomeworkResponse.schema UpdateHomeworkResponse.handler.

Module ListHomeworkResponses.
Record input : Type := mkInput { requestId : Z }.

Definition schema (i : input) : bool := true.

Definition handler (input : input) (context : ActionAPIContext)
  : Action (Success (ListData HomeworkResponse.row)) :=
  user <- requireUser context ;;
  getOwnedRequest (requestId input) (App.id user) ;;;
  responses <- select HomeworkResponses
                 (fun r => HomeworkResponse.requestId r =? requestId input) ;;
  ret (mkSuccess true (mkListData responses (List.length responses))).
End ListHomeworkResponses.

Definition listHomeworkResponses :=
  defineAction ListHomeworkResponses.schema ListHomeworkResponses.handler.

Module CreateHomeworkJob.
Record input : Type := mkInput {
  requestId : option Z;
  jobType : option JobType;
  input_ : option JsonRecord;   (* the field [input] *)
  output : option JsonRecord;
  status : option JobStatus
}.

Definition schema (i : input) : bool := true.

Definition handler (input : input) (context : ActionAPIContext)
  : Action (Success JobData) :=
  user <- requireUser context ;;
  match requestId input with
  | Some requestId => getOwnedRequest requestId (App.id user) ;;; ret tt
  | None => ret tt
  end ;;;
  createdAt <- newDate ;;
  returning <- insert HomeworkJobs (fun id =>
    HomeworkJob.mk id (requestId input) (Some (App.id user))
      (nullish (jobType input) full_solution) (input_ input) (output input)
      (nullish (status input) completed) createdAt) ;;
  ret (mkSuccess true (mkJobData (hd_error returning))).
End CreateHomeworkJob.

Definition createHomeworkJob :=
  defineAction CreateHomeworkJob.schema CreateHomeworkJob.handler.

Module ListHomeworkJobs.
Record fields : Type := mkFields { requestId : option Z }.
Definition input : Type := option fields.

Definition schema (i : input) : bool := true.

(** [eq(column, value)] on a nullable column: no match on [NULL]. *)
Definition eq_nullable {A : Type} (eqb : A -> A -> bool) (c : option A) (v : A)
  : bool :=
  match c with
  | Some x => eqb x v
  | None => false
  end.

Definition handler (input : input) (context : ActionAPIContext)
  : Action (Success (ListData HomeworkJob.row)) :=
  user <- requireUser context ;;
  let filters :=
    ([fun r => eq_nullable String.eqb (HomeworkJob.userId r) (App.id user)]
     ++ match input with
        | Some {| requestId := Some rid |} =>
            [fun r => eq_nullable Z.eqb (HomeworkJob.requestId r) rid]
        | _ => []
        end)%list in
  jobs <- select HomeworkJobs (fun r => forallb (fun f => f r) filters) ;;
  ret (mkSuccess true (mkListData jobs (List.length jobs))).
End ListHomeworkJobs.

Definition listHomeworkJobs :=
  defineAction ListHomeworkJobs.schema ListHomeworkJobs.handler.

Unset Implicit Arguments.

(** * Properties *)

(** ** Vocabulary of the statements *)

(** The two errors the guards throw. *)
Definition unauthorized : ActionError :=
  ActionErr UNAUTHORIZED "You must be signed in to perform this action.".
Definition request_not_found : ActionError :=
  ActionErr NOT_FOUND "Homework request not found.".
Definition response_not_found : ActionError :=
  ActionErr NOT_FOUND "Response not found.".

(** User [uid] owns a request with identifier [rid]. When this fails, either
    no request has the identifier or it belongs to somebody else. *)
Definition owns (d : Database) (uid : string) (rid : Z) : Prop :=
  exists r, In r (requests d)
            /\ HomeworkRequest.id r = rid /\ HomeworkRequest.userId r = uid.

(** No request has identifier [rid]. *)
Definition no_such_request (d : Database) (rid : Z) : Prop :=
  forall r, In r (requests d) -> HomeworkRequest.id r <> rid.

(** [t] was read from the clock between the worlds [w] and [w']. *)
Definition read_during (w w' : World) (t : Date) : Prop :=
  exists n, (reads w <= n < reads w')%nat /\ t = wall w n.

(** An update leaves a nullable column as it was when the field is omitted
    and stores the supplied value otherwise. *)
Definition patched {A : Type} (supplied old new : option A) : Prop :=
  match supplied with
  | Some v => new = Some v
  | None => new = old
  end.

(** The same for a column that is not nullable. *)
Definition patched_required {A : Type} (supplied : option A) (old new : A) : Prop :=
  match supplied with
  | Some v => new = v
  | None => new = old
  end.

(** ** Lists and queries *)

Section Queries.
Context {R : Type}.
Variable key : R -> Z.

Lemma hd_filter_found (p : R -> bool) (l : list R) (x : R) :
  In x l -> p x = true ->
  exists y, hd_error (filter p l) = Some y /\ In y l /\ p y = true.
Proof.
  intros Hin Hp.
  assert (Hf : In x (filter p l)) by (apply filter_In; auto).
  destruct (filter p l) as [|y tl] eqn:E; [contradiction|].
  exists y. split; [reflexivity|].
  assert (Hy : In y (filter p l)) by (rewrite E; left; reflexivity).
  apply filter_In in Hy. exact Hy.
Qed.

Lemma filter_nothing (p : R -> bool) (l : list R) :
  (forall x, In x l -> p x = false) -> filter p l = [].
Proof.
  induction l as [|a l IH]; intros H; simpl; [reflexivity|].
  rewrite (H a (or_introl eq_refl)). apply IH.
  intros x Hx. apply H. right. exact Hx.
Qed.

(** Under the primary key constraint a key selects exactly its row. *)
Lemma filter_key_unique (l : list R) (x : R) :
  NoDup (map key l) -> In x l ->
  filter (fun r => key r =? key x) l = [x].
Proof.
  induction l as [|a l IH]; intros Hnd Hin; [contradiction|].
  simpl in Hnd. inversion Hnd as [|? ? Hnotin Hnd']; subst.
  simpl. destruct Hin as [->|Hin].
  - rewrite Z.eqb_refl. f_equal.
    apply filter_nothing. intros y Hy.
    apply Z.eqb_neq. intros Heq. apply Hnotin.
    rewrite <- Heq. apply in_map. exact Hy.
  - destruct (Z.eqb_spec (key a) (key x)) as [Heq|Hne].
    + exfalso. apply Hnotin. rewrite Heq. apply in_map. exact Hin.
    + apply IH; assumption.
Qed.

Lemma fold_max_bound (ids : list Z) (i : Z) :
  In i ids -> i <= fold_right Z.max 0 ids.
Proof.
  induction ids as [|a ids IH]; intros Hin; [contradiction|].
  simpl. destruct Hin as [->|Hin]; [lia|].
  specialize (IH Hin). lia.
Qed.

(** The key handed out by an insert is not in the table yet. *)
Lemma next_id_fresh (l : list R) (x : R) :
  In x l -> key x <> next_id (map key l).
Proof.
  intros Hin. unfold next_id.
  pose proof (fold_max_bound (map key l) (key x) (in_map key l x Hin)). lia.
Qed.
End Queries.

(** The primary key constraint is kept by an insert whose row takes the
    key it is given, and by an update that does not write the key. *)
Lemma insert_pk_unique {R : Type} (t : Table R) (values : Z -> R) (w : World) :
  (forall l d, rows_of t (with_rows t l d) = l) ->
  (forall k, pk t (written t (values k)) = k) ->
  pk_unique t (db w) -> pk_unique t (db (snd (insert t values w))).
Proof.
  intros Hrows Hkey Hpk. unfold pk_unique, insert. simpl.
  rewrite Hrows, map_app. simpl. rewrite Hkey.
  apply NoDup_app; [exact Hpk | repeat constructor; intros [] | ].
  intros k Hk [<-|[]].
  apply in_map_iff in Hk. destruct Hk as (x & Hx & Hin).
  exact (next_id_fresh (pk t) (rows_of t (db w)) x Hin Hx).
Qed.

Lemma update_pk_unique {R : Type} (t : Table R) (set : R -> R) (cond : R -> bool)
    (w : World) :
  (forall l d, rows_of t (with_rows t l d) = l) ->
  (forall r, pk t (set r) = pk t r) ->
  pk_unique t (db w) -> pk_unique t (db (snd (update t set cond w))).
Proof.
  intros Hrows Hkey Hpk. unfold pk_unique, update. simpl.
  rewrite Hrows, map_map.
  rewrite (map_ext (fun r => pk t (if cond r then set r else r)) (pk t));
    [exact Hpk|].
  intros r. destruct (cond r); [apply Hkey|reflexivity].
Qed.

(** ** The monad and the guards *)

Lemma bind_Ok {A B : Type} (m : Action A) (k : A -> Action B) (w w' : World) (a : A) :
  m w = (Ok a, w') -> bind m k w = k a w'.
Proof. intros H. unfold bind. rewrite H. reflexivity. Qed.

Lemma bind_Throw {A B : Type} (m : Action A) (k : A -> Action B) (w w' : World)
    (e : ActionError) :
  m w = (Throw e, w') -> bind m k w = (Throw e, w').
Proof. intros H. unfold bind. rewrite H. reflexivity. Qed.

Lemma defineAction_invalid {I O : Type} (schema : I -> bool)
    (handler : I -> ActionAPIContext -> Action O) i context w :
  schema i = false ->
  defineAction schema handler i context w = (Throw ActionInputError, w).
Proof. intros H. unfold defineAction. rewrite H. reflexivity. Qed.

Lemma defineAction_valid {I O : Type} (schema : I -> bool)
    (handler : I -> ActionAPIContext -> Action O) i context w :
  schema i = true ->
  defineAction schema handler i context w = handler i context w.
Proof. intros H. unfold defineAction. rewrite H. reflexivity. Qed.

Lemma requireUser_signed_in context u w :
  context_user context = Some u -> requireUser context w = (Ok u, w).
Proof. intros H. unfold requireUser. rewrite H. reflexivity. Qed.

Lemma requireUser_anonymous context w :
  context_user context = None ->
  requireUser context w = (Throw unauthorized, w).
Proof. intros H. unfold requireUser. rewrite H. reflexivity. Qed.

Lemma getOwnedRequest_owned rid uid w :
  owns (db w) uid rid ->
  exists r, getOwnedRequest rid uid w = (Ok r, w)
            /\ In r (requests (db w))
            /\ HomeworkRequest.id r = rid /\ HomeworkRequest.userId r = uid.
Proof.
  intros (r & Hin & Hid & Hu).
  unfold getOwnedRequest, bind, select. simpl.
  destruct (hd_filter_found
              (fun r => (HomeworkRequest.id r =? rid)
                        && String.eqb (HomeworkRequest.userId r) uid)
              (requests (db w)) r Hin) as (y & Hhd & Hy & Hp).
  { rewrite Hid, Hu, Z.eqb_refl, String.eqb_refl. reflexivity. }
  rewrite Hhd. exists y. split; [reflexivity|]. split; [exact Hy|].
  apply andb_true_iff in Hp. destruct Hp as [H1 H2].
  split; [apply Z.eqb_eq; exact H1 | apply String.eqb_eq; exact H2].
Qed.

Lemma getOwnedRequest_not_owned rid uid w :
  ~ owns (db w) uid rid ->
  getOwnedRequest rid uid w = (Throw request_not_found, w).
Proof.
  intros Hno. unfold getOwnedRequest, bind, select. simpl.
  rewrite filter_nothing; [reflexivity|].
  intros x Hx. apply andb_false_iff.
  destruct (Z.eqb_spec (HomeworkRequest.id x) rid) as [Hid|]; [|left; reflexivity].
  right. apply String.eqb_neq. intros Hu. apply Hno. exists x. auto.
Qed.

(** A request that does not exist is not owned, and neither is one that
    belongs to another user (the key identifies one row). *)
Lemma no_such_request_not_owned d uid rid :
  no_such_request d rid -> ~ owns d uid rid.
Proof. intros Hno (r & Hin & Hid & _). exact (Hno r Hin Hid). Qed.

Lemma foreign_request_not_owned d a b rid :
  pk_unique HomeworkRequests d -> owns d a rid -> a <> b -> ~ owns d b rid.
Proof.
  intros Hpk (r & Hin & Hid & Hu) Hab (r' & Hin' & Hid' & Hu').
  pose proof (filter_key_unique HomeworkRequest.id (requests d) r Hpk Hin) as Hf.
  assert (Hr' : In r' (filter (fun x => HomeworkRequest.id x =? HomeworkRequest.id r)
                              (requests d))).
  { apply filter_In. split; [exact Hin'|]. apply Z.eqb_eq. congruence. }
  rewrite Hf in Hr'. destruct Hr' as [<-|[]]. congruence.
Qed.

Lemma z_string_min_1_nonempty (s : string) : s <> "" -> z_string_min 1 s = true.
Proof. intros H. destruct s; [contradiction|reflexivity]. Qed.

(** ** Example data for the concrete instances *)

Definition signed_in (uid : string) : ActionAPIContext :=
  mkContext (Some (App.mkLocals (Some (App.mkUser uid)))).

Definition anonymous : ActionAPIContext := mkContext (Some (App.mkLocals None)).

(** An empty database and a clock that advances by one at each reading. *)
Definition world0 : World := mkWorld empty_db (fun n => 1000 + Z.of_nat n) 0.

Definition ask (q : string) : CreateHomeworkRequest.input :=
  CreateHomeworkRequest.mkInput (Some "Math") None None None q None.

(** [world1]: alice has asked one question, request 1. *)
Definition world1 : World :=
  snd (createHomeworkRequest (ask "What is 2+2?") (signed_in "alice") world0).

(** ** createHomeworkRequest *)

(** C5. [createHomeworkRequest] rejects an empty [questionText] with a
    validation error and inserts nothing; every call that is accepted
    appends one row with status [open] and [createdAt] equal to [updatedAt]
    (one reading of the clock) and returns that row; and a signed-in call
    with a non-empty question is accepted. *)
Theorem createHomeworkRequest_creates_open_row :
  forall (input : CreateHomeworkRequest.input) (context : ActionAPIContext) (w : World),
    (CreateHomeworkRequest.questionText input = "" ->
     createHomeworkRequest input context w = (Throw ActionInputError, w))
    /\ (forall env w',
         createHomeworkRequest input context w = (Ok env, w') ->
         exists row,
           env = mkSuccess true (mkRequestData (Some row))
           /\ db w' = mkDatabase (requests (db w) ++ [row])
                                 (responses (db w)) (jobs (db w))
           /\ HomeworkRequest.status row = open
           /\ HomeworkRequest.createdAt row = HomeworkRequest.updatedAt row
           /\ read_during w w' (HomeworkRequest.createdAt row)
           /\ HomeworkRequest.questionText row
              = CreateHomeworkRequest.questionText input)
    /\ (forall u,
         context_user context = Some u ->
         CreateHomeworkRequest.questionText input <> "" ->
         exists env w', createHomeworkRequest input context w = (Ok env, w')).
Proof.
  intros input context w. split; [|split].
  - intros Hq. apply defineAction_invalid.
    unfold CreateHomeworkRequest.schema. rewrite Hq. reflexivity.
  - intros env w' Hrun.
    unfold createHomeworkRequest, defineAction in Hrun.
    destruct (CreateHomeworkRequest.schema input); [|discriminate].
    unfold CreateHomeworkRequest.handler, bind, requireUser in Hrun.
    destruct (context_user context) as [u|]; [|discriminate].
    simpl in Hrun. inversion Hrun; subst; clear Hrun.
    eexists. split; [reflexivity|]. simpl.
    repeat split.
    exists (reads w). simpl. split; [lia|reflexivity].
  - intros u Hu Hq.
    unfold createHomeworkRequest.
    rewrite defineAction_valid
      by (apply z_string_min_1_nonempty; exact Hq).
    unfold CreateHomeworkRequest.handler.
    rewrite (bind_Ok _ _ _ _ _ (requireUser_signed_in context u w Hu)).
    eexists. eexists. reflexivity.
Qed.

Lemma createHomeworkRequest_creates_open_row_witness :
  createHomeworkRequest (ask "") (signed_in "alice") world0
  = (Throw ActionInputError, world0)
  /\ exists env w',
       createHomeworkRequest (ask "What is 2+2?") (signed_in "alice") world0
       = (Ok env, w').
Proof.
  split.
  - apply (proj1 (createHomeworkRequest_creates_open_row
                    (ask "") (signed_in "alice") world0)).
    reflexivity.
  - apply (proj2 (proj2 (createHomeworkRequest_creates_open_row
                           (ask "What is 2+2?") (signed_in "alice") world0))
             (App.mkUser "alice")).
    + reflexivity.
    + discriminate.
Defined.

(** ** The order of the checks *)

Ltac step_ok H := rewrite (bind_Ok _ _ _ _ _ H).
Ltac step_throw H := rewrite (bind_Throw _ _ _ _ _ H).

(** An action answers a call without a signed-in user with [unauthorized],
    leaving the world as it was, as soon as the input passes its schema. *)
Definition unauthorized_when_valid {I O : Type}
    (schema : I -> bool) (action : I -> ActionAPIContext -> Action O) : Prop :=
  forall i context w,
    context_user context = None -> schema i = true ->
    action i context w = (Throw unauthorized, w).

(** An action answers an input that fails its schema with a validation
    error, whoever calls. *)
Definition invalid_input_first {I O : Type}
    (schema : I -> bool) (action : I -> ActionAPIContext -> Action O) : Prop :=
  forall i context w,
    schema i = false -> action i context w = (Throw ActionInputError, w).

(** C6, counterexample: an anonymous call of [createHomeworkRequest] with an
    empty question fails with the validation error, not with
    [unauthorized]. *)
Lemma unauthorized_not_before_validation :
  context_user anonymous = None
  /\ createHomeworkRequest (ask "") anonymous world0
     = (Throw ActionInputError, world0)
  /\ error_code ActionInputError <> UNAUTHORIZED.
Proof. repeat split. discriminate. Qed.

(** C6, as the code has it. The input is validated before the handler
    runs, and [requireUser] is the first step of every handler: in each of
    the eight actions an input that fails the schema is answered with the
    validation error whether or not a user is signed in, and an input that
    passes it, without a signed-in user, is answered with [unauthorized]
    before any access to the database or the clock. *)
Theorem unauthorized_first_in_handler :
  (invalid_input_first CreateHomeworkRequest.schema createHomeworkRequest
   /\ unauthorized_when_valid CreateHomeworkRequest.schema createHomeworkRequest)
  /\ (invalid_input_first UpdateHomeworkRequest.schema updateHomeworkRequest
      /\ unauthorized_when_valid UpdateHomeworkRequest.schema updateHomeworkRequest)
  /\ (invalid_input_first ListHomeworkRequests.schema listHomeworkRequests
      /\ unauthorized_when_valid ListHomeworkRequests.schema listHomeworkRequests)
  /\ (invalid_input_first AddHomeworkResponse.schema addHomeworkResponse
      /\ unauthorized_when_valid AddHomeworkResponse.schema addHomeworkResponse)
  /\ (invalid_input_first UpdateHomeworkResponse.schema updateHomeworkResponse
      /\ unauthorized_when_valid UpdateHomeworkResponse.schema updateHomeworkResponse)
  /\ (invalid_input_first ListHomeworkResponses.schema listHomeworkResponses
      /\ unauthorized_when_valid ListHomeworkResponses.schema listHomeworkResponses)
  /\ (invalid_input_first CreateHomeworkJob.schema createHomeworkJob
      /\ unauthorized_when_valid CreateHomeworkJob.schema createHomeworkJob)
  /\ (invalid_input_first ListHomeworkJobs.schema listHomeworkJobs
      /\ unauthorized_when_valid ListHomeworkJobs.schema listHomeworkJobs).
Proof.
  repeat split;
    try (intros i context w Hinvalid; apply defineAction_invalid; exact Hinvalid);
    intros i context w Hanon Hvalid;
    match goal with
    | |- ?action i context w = _ => unfold action
    end;
    rewrite defineAction_valid by exact Hvalid;
    match goal with
    | |- ?handler i context w = _ => unfold handler
    end;
    step_throw (requireUser_anonymous context w Hanon); reflexivity.
Qed.

Lemma unauthorized_first_in_handler_witness :
  createHomeworkRequest (ask "") anonymous world0 = (Throw ActionInputError, world0)
  /\ createHomeworkRequest (ask "What is 2+2?") anonymous world0
     = (Throw unauthorized, world0).
Proof.
  destruct unauthorized_first_in_handler as [[Hinvalid Hanon] _].
  split.
  - apply Hinvalid. reflexivity.
  - apply Hanon; reflexivity.
Defined.

(** ** Acceptance and the status of the parent request *)

(** The requests table [rows] after the status of request [rid] is set to
    [s] at time [t]: the rows with that identifier get the status and the
    [updatedAt], every other column and every other row stay. *)
Definition status_set (rid : Z) (s : RequestStatus) (t : Date)
    (rows : list HomeworkRequest.row) : list HomeworkRequest.row :=
  map (fun r =>
         if HomeworkRequest.id r =? rid
         then HomeworkRequest.mk (HomeworkRequest.id r) (HomeworkRequest.userId r)
                (HomeworkRequest.subject r) (HomeworkRequest.gradeLevel r)
                (HomeworkRequest.topic r) (HomeworkRequest.title r)
                (HomeworkRequest.questionText r) (HomeworkRequest.attachments r)
                s (HomeworkRequest.createdAt r) t
         else r)
      rows.

(** In [status_set] every request [rid] has the new status and time, and
    the owner keeps owning it. *)
Lemma status_set_sets rid s t rows r :
  In r (status_set rid s t rows) -> HomeworkRequest.id r = rid ->
  HomeworkRequest.status r = s /\ HomeworkRequest.updatedAt r = t.
Proof.
  unfold status_set. intros Hin Hid.
  apply in_map_iff in Hin. destruct Hin as (x & Hx & _).
  destruct (Z.eqb_spec (HomeworkRequest.id x) rid) as [|Hne].
  - subst r. simpl. split; reflexivity.
  - subst x. contradiction.
Qed.

Lemma status_set_owner rid s t d uid :
  owns d uid rid ->
  exists r, In r (status_set rid s t (requests d))
            /\ HomeworkRequest.id r = rid /\ HomeworkRequest.userId r = uid
            /\ HomeworkRequest.status r = s /\ HomeworkRequest.updatedAt r = t.
Proof.
  intros (x & Hin & Hid & Hu).
  eexists. split.
  - unfold status_set. apply in_map_iff. exists x. split; [reflexivity|exact Hin].
  - rewrite <- Hid, Z.eqb_refl. simpl. auto.
Qed.

(** C1. A signed-in call of [addHomeworkResponse] on a request the caller
    owns appends one response and returns it. With [isAccepted: true] the
    response is accepted and, in the same call, the parent request gets
    status [answered] and an [updatedAt] read from the clock during the
    call; with [isAccepted] omitted or false the response is not accepted
    and the requests table is left as it was. *)
Theorem addHomeworkResponse_acceptance :
  forall (input : AddHomeworkResponse.input) (context : ActionAPIContext)
         (u : App.User) (w : World),
    context_user context = Some u ->
    AddHomeworkResponse.schema input = true ->
    owns (db w) (App.id u) (AddHomeworkResponse.requestId input) ->
    exists resp w',
      addHomeworkResponse input context w
      = (Ok (mkSuccess true (mkResponseData (Some resp))), w')
      /\ responses (db w') = (responses (db w) ++ [resp])%list
      /\ HomeworkResponse.requestId resp = AddHomeworkResponse.requestId input
      /\ (AddHomeworkResponse.isAccepted input = Some true ->
          HomeworkResponse.isAccepted resp = true
          /\ exists t parent,
               read_during w w' t
               /\ requests (db w')
                  = status_set (AddHomeworkResponse.requestId input) answered t
                               (requests (db w))
               /\ In parent (requests (db w'))
               /\ HomeworkRequest.id parent = AddHomeworkResponse.requestId input
               /\ HomeworkRequest.userId parent = App.id u
               /\ HomeworkRequest.status parent = answered
               /\ HomeworkRequest.updatedAt parent = t)
      /\ (AddHomeworkResponse.isAccepted input = None
          \/ AddHomeworkResponse.isAccepted input = Some false ->
          HomeworkResponse.isAccepted resp = false
          /\ requests (db w') = requests (db w)).
Proof.
  intros input context u w Hu Hvalid Hown.
  unfold addHomeworkResponse. rewrite defineAction_valid by exact Hvalid.
  unfold AddHomeworkResponse.handler.
  step_ok (requireUser_signed_in context u w Hu).
  destruct (getOwnedRequest_owned _ _ _ Hown) as (r & Hget & _).
  step_ok Hget.
  unfold bind, newDate, insert, update, ret, AddHomeworkResponse.truthy.
  destruct (AddHomeworkResponse.isAccepted input) as [[|]|] eqn:Hacc; simpl;
    eexists; eexists; (split; [reflexivity|]); simpl;
    (split; [reflexivity|]); (split; [reflexivity|]); split;
    try (intros H; discriminate H);
    try (intros [H|H]; discriminate H);
    try (intros _; split; reflexivity).
  intros _. split; [reflexivity|].
  destruct (status_set_owner (AddHomeworkResponse.requestId input) answered
              (wall w (S (reads w))) (db w) (App.id u) Hown)
    as (parent & Hin & Hid & Huid & Hst & Hup).
  exists (wall w (S (reads w))), parent.
  split; [exists (S (reads w)); simpl; split; [lia|reflexivity]|].
  split; [reflexivity|].
  split; [exact Hin|]. auto.
Qed.

Definition answer (rid : Z) (accepted : option bool) : AddHomeworkResponse.input :=
  AddHomeworkResponse.mkInput rid "4" None accepted None None None.

Lemma alice_owns_request_1 : owns (db world1) "alice" 1.
Proof.
  eexists. split; [left; reflexivity|]. split; reflexivity.
Qed.

Lemma addHomeworkResponse_acceptance_witness :
  exists resp w',
    addHomeworkResponse (answer 1 (Some true)) (signed_in "alice") world1
    = (Ok (mkSuccess true (mkResponseData (Some resp))), w')
    /\ HomeworkResponse.isAccepted resp = true
    /\ forall r, In r (requests (db w')) -> HomeworkRequest.status r = answered.
Proof.
  destruct (addHomeworkResponse_acceptance
              (answer 1 (Some true)) (signed_in "alice") (App.mkUser "alice") world1)
    as (resp & w' & Hrun & _ & _ & Hyes & _).
  - reflexivity.
  - reflexivity.
  - exact alice_owns_request_1.
  - exists resp, w'. split; [exact Hrun|].
    destruct (Hyes eq_refl) as (Hacc & t & parent & _ & Hreqs & _).
    split; [exact Hacc|].
    intros r Hin. rewrite Hreqs in Hin.
    destruct Hin as [<-|[]]. reflexivity.
Defined.

(** ** updateHomeworkResponse *)

(** The response [input] designates: identifier and parent request. *)
Definition designated (input : UpdateHomeworkResponse.input)
    (r : HomeworkResponse.row) : Prop :=
  HomeworkResponse.id r = UpdateHomeworkResponse.id input
  /\ HomeworkResponse.requestId r = UpdateHomeworkResponse.requestId input.

Lemma select_designated input w :
  (exists r, In r (responses (db w)) /\ designated input r) ->
  exists y,
    hd_error (filter (fun r => (HomeworkResponse.id r =? UpdateHomeworkResponse.id input)
                               && (HomeworkResponse.requestId r
                                   =? UpdateHomeworkResponse.requestId input))
                     (responses (db w))) = Some y.
Proof.
  intros (r & Hin & Hid & Hrid).
  destruct (hd_filter_found
              (fun r => (HomeworkResponse.id r =? UpdateHomeworkResponse.id input)
                        && (HomeworkResponse.requestId r
                            =? UpdateHomeworkResponse.requestId input))
              (responses (db w)) r Hin) as (y & Hy & _).
  - rewrite Hid, Hrid, !Z.eqb_refl. reflexivity.
  - exists y. exact Hy.
Qed.

Lemma select_not_designated input w :
  (forall r, In r (responses (db w)) -> ~ designated input r) ->
  filter (fun r => (HomeworkResponse.id r =? UpdateHomeworkResponse.id input)
                   && (HomeworkResponse.requestId r
                       =? UpdateHomeworkResponse.requestId input))
         (responses (db w)) = [].
Proof.
  intros Hnone. apply filter_nothing. intros x Hx.
  apply andb_false_iff.
  destruct (Z.eqb_spec (HomeworkResponse.id x) (UpdateHomeworkResponse.id input));
    [|left; reflexivity].
  right. apply Z.eqb_neq. intros Hrid. apply (Hnone x Hx). split; assumption.
Qed.

(** C2. A signed-in call of [updateHomeworkResponse] on an existing response
    of a request the caller owns succeeds. With [isAccepted] supplied as [b]
    the parent request gets status [answered] when [b] is true and [open]
    when it is false, with an [updatedAt] read during the call, whatever the
    other responses of the request are (they are not looked at and stay as
    they were); with [isAccepted] omitted the requests table is left as it
    was. *)
Theorem updateHomeworkResponse_acceptance :
  forall (input : UpdateHomeworkResponse.input) (context : ActionAPIContext)
         (u : App.User) (w : World),
    context_user context = Some u ->
    UpdateHomeworkResponse.schema input = true ->
    owns (db w) (App.id u) (UpdateHomeworkResponse.requestId input) ->
    (exists r, In r (responses (db w)) /\ designated input r) ->
    exists env w',
      updateHomeworkResponse input context w = (Ok env, w')
      /\ (forall other,
            In other (responses (db w)) ->
            HomeworkResponse.id other <> UpdateHomeworkResponse.id input ->
            In other (responses (db w')))
      /\ (forall b,
            UpdateHomeworkResponse.isAccepted input = Some b ->
            exists t parent,
              read_during w w' t
              /\ requests (db w')
                 = status_set (UpdateHomeworkResponse.requestId input)
                              (if b then answered else open) t (requests (db w))
              /\ In parent (requests (db w'))
              /\ HomeworkRequest.id parent = UpdateHomeworkResponse.requestId input
              /\ HomeworkRequest.userId parent = App.id u
              /\ HomeworkRequest.status parent = (if b then answered else open)
              /\ HomeworkRequest.updatedAt parent = t)
      /\ (UpdateHomeworkResponse.isAccepted input = None ->
          requests (db w') = requests (db w)).
Proof.
  intros input context u w Hu Hvalid Hown Hexists.
  unfold updateHomeworkResponse. rewrite defineAction_valid by exact Hvalid.
  unfold UpdateHomeworkResponse.handler.
  step_ok (requireUser_signed_in context u w Hu).
  destruct (getOwnedRequest_owned _ _ _ Hown) as (r & Hget & _).
  step_ok Hget.
  destruct (select_designated input w Hexists) as (y & Hy).
  unfold bind, select. simpl. rewrite Hy.
  assert (Hothers :
            forall other,
              In other (responses (db w)) ->
              HomeworkResponse.id other <> UpdateHomeworkResponse.id input ->
              In other
                 (map (fun r0 =>
                         if HomeworkResponse.id r0 =? UpdateHomeworkResponse.id input
                         then UpdateHomeworkResponse.set input r0 else r0)
                      (responses (db w)))).
  { intros other Hin Hne. apply in_map_iff. exists other. split; [|exact Hin].
    apply Z.eqb_neq in Hne. rewrite Hne. reflexivity. }
  destruct (UpdateHomeworkResponse.isAccepted input) as [b|] eqn:Hacc; simpl;
    eexists; eexists; (split; [reflexivity|]); simpl;
    (split; [exact Hothers|]); split; try (intros H; discriminate H).
  - intros b' Hb'. inversion Hb'; subst b'.
    destruct (status_set_owner (UpdateHomeworkResponse.requestId input)
                (if b then answered else open) (wall w (reads w)) (db w)
                (App.id u) Hown)
      as (parent & Hin & Hid & Huid & Hst & Hup).
    exists (wall w (reads w)), parent.
    split; [exists (reads w); simpl; split; [lia|reflexivity]|].
    split; [reflexivity|].
    split; [exact Hin|]. auto.
  - intros b Hb. discriminate Hb.
  - intros _. reflexivity.
Qed.

(** C7. When the caller owns the request [requestId] but no response has
    both identifier [id] and parent [requestId] (a response [id] under
    another request included), [updateHomeworkResponse] fails with
    NOT_FOUND and the world, hence every row, is as before. *)
Theorem updateHomeworkResponse_wrong_request_not_found :
  forall (input : UpdateHomeworkResponse.input) (context : ActionAPIContext)
         (u : App.User) (w : World),
    context_user context = Some u ->
    UpdateHomeworkResponse.schema input = true ->
    owns (db w) (App.id u) (UpdateHomeworkResponse.requestId input) ->
    (forall r, In r (responses (db w)) -> ~ designated input r) ->
    updateHomeworkResponse input context w = (Throw response_not_found, w)
    /\ error_code response_not_found = NOT_FOUND.
Proof.
  intros input context u w Hu Hvalid Hown Hnone.
  split; [|reflexivity].
  unfold updateHomeworkResponse. rewrite defineAction_valid by exact Hvalid.
  unfold UpdateHomeworkResponse.handler.
  step_ok (requireUser_signed_in context u w Hu).
  destruct (getOwnedRequest_owned _ _ _ Hown) as (r & Hget & _).
  step_ok Hget.
  unfold bind, select. simpl.
  rewrite (select_not_designated input w Hnone). reflexivity.
Qed.

(** [world4]: alice has asked two questions, requests 1 and 2, and request
    1 has two accepted responses, 1 and 2. *)
Definition world2 : World :=
  snd (createHomeworkRequest (ask "And 3+3?") (signed_in "alice") world1).
Definition world3 : World :=
  snd (addHomeworkResponse (answer 1 (Some true)) (signed_in "alice") world2).
Definition world4 : World :=
  snd (addHomeworkResponse (answer 1 (Some true)) (signed_in "alice") world3).

Lemma alice_owns_world4 rid : rid = 1 \/ rid = 2 -> owns (db world4) "alice" rid.
Proof.
  intros [->| ->]; eexists.
  - split; [left; reflexivity|]. split; reflexivity.
  - split; [right; left; reflexivity|]. split; reflexivity.
Qed.

(** Un-accepting response 1 reopens request 1 although response 2 of the
    same request is still accepted. *)
Lemma updateHomeworkResponse_acceptance_witness :
  exists env w',
    updateHomeworkResponse
      (UpdateHomeworkResponse.mkInput 1 1 (Some false) None None)
      (signed_in "alice") world4 = (Ok env, w')
    /\ (exists parent,
          In parent (requests (db w'))
          /\ HomeworkRequest.id parent = 1 /\ HomeworkRequest.status parent = open)
    /\ (exists other,
          In other (responses (db w'))
          /\ HomeworkResponse.requestId other = 1
          /\ HomeworkResponse.isAccepted other = true).
Proof.
  destruct (updateHomeworkResponse_acceptance
              (UpdateHomeworkResponse.mkInput 1 1 (Some false) None None)
              (signed_in "alice") (App.mkUser "alice") world4)
    as (env & w' & Hrun & Hothers & Hset & _).
  - reflexivity.
  - reflexivity.
  - apply alice_owns_world4. left. reflexivity.
  - eexists. split; [left; reflexivity|]. split; reflexivity.
  - exists env, w'. split; [exact Hrun|]. split.
    + destruct (Hset false eq_refl) as (t & parent & _ & _ & Hin & Hid & _ & Hst & _).
      exists parent. auto.
    + eexists. split; [apply Hothers|].
      * right. left. reflexivity.
      * discriminate.
      * split; reflexivity.
Defined.

(** Response 1 exists, but under request 1: asked for under request 2 it is
    not found. *)
Lemma updateHomeworkResponse_wrong_request_not_found_witness :
  updateHomeworkResponse
    (UpdateHomeworkResponse.mkInput 1 2 None (Some (Finite 5)) None)
    (signed_in "alice") world4 = (Throw response_not_found, world4).
Proof.
  apply (updateHomeworkResponse_wrong_request_not_found
           (UpdateHomeworkResponse.mkInput 1 2 None (Some (Finite 5)) None)
           (signed_in "alice") (App.mkUser "alice") world4).
  - reflexivity.
  - reflexivity.
  - apply alice_owns_world4. right. reflexivity.
  - intros r [<-|[<-|[]]] [Hid Hrid]; discriminate.
Defined.

(** ** Ownership isolation *)

(** Request [rid] is not the caller's: there is no such request, or there
    is one and it belongs to another user. *)
Definition not_callers (d : Database) (uid : string) (rid : Z) : Prop :=
  no_such_request d rid
  \/ (pk_unique HomeworkRequests d /\ exists a, a <> uid /\ owns d a rid).

Lemma not_callers_not_owned d uid rid : not_callers d uid rid -> ~ owns d uid rid.
Proof.
  intros [Hnone|(Hpk & a & Hne & Ha)].
  - apply no_such_request_not_owned. exact Hnone.
  - apply (foreign_request_not_owned d a uid rid Hpk Ha Hne).
Qed.

(** An action hides the requests of others: called by a signed-in user on a
    request that is not theirs, it throws, changes nothing, and what it
    throws depends on the input alone: [request_not_found] when the input
    passes the schema (the validation error otherwise), the same for an
    identifier that does not exist and for another user's request, and
    nothing of any row. *)
Definition hides_request {I O : Type} (schema : I -> bool)
    (action : I -> ActionAPIContext -> Action O) (request_of : I -> option Z)
  : Prop :=
  forall i context u w rid,
    context_user context = Some u ->
    request_of i = Some rid ->
    not_callers (db w) (App.id u) rid ->
    action i context w
    = (Throw (if schema i then request_not_found else ActionInputError), w).

(** C3. Each of the five operations that take a request identifier hides
    the requests of others, and [request_not_found] has code NOT_FOUND. *)
Theorem request_of_another_user_not_found :
  hides_request UpdateHomeworkRequest.schema updateHomeworkRequest
    (fun i => Some (UpdateHomeworkRequest.id i))
  /\ hides_request AddHomeworkResponse.schema addHomeworkResponse
       (fun i => Some (AddHomeworkResponse.requestId i))
  /\ hides_request UpdateHomeworkResponse.schema updateHomeworkResponse
       (fun i => Some (UpdateHomeworkResponse.requestId i))
  /\ hides_request ListHomeworkResponses.schema listHomeworkResponses
       (fun i => Some (ListHomeworkResponses.requestId i))
  /\ hides_request CreateHomeworkJob.schema createHomeworkJob
       CreateHomeworkJob.requestId
  /\ error_code request_not_found = NOT_FOUND.
Proof.
  repeat split;
    intros i context u w rid Hu Hrid Hnot;
    apply not_callers_not_owned in Hnot;
    pose proof (getOwnedRequest_not_owned rid (App.id u) w Hnot) as Hget;
    match goal with
    | |- ?action i context w = (Throw (if ?schema i then _ else _), w) =>
        unfold action; destruct (schema i) eqn:Hvalid
    end;
    try (apply defineAction_invalid; exact Hvalid);
    rewrite defineAction_valid by exact Hvalid;
    match goal with
    | |- ?handler i context w = _ => unfold handler
    end;
    step_ok (requireUser_signed_in context u w Hu);
    try (injection Hrid as Hrid); try rewrite Hrid;
    unfold bind; rewrite Hget; reflexivity.
Qed.

Lemma pk_unique_world4 : pk_unique HomeworkRequests (db world4).
Proof.
  unfold pk_unique. simpl.
  repeat (constructor; [simpl; intuition discriminate|]). constructor.
Qed.

(** Bob gets the same answer for alice's request 1 and for the identifier
    99 that no request has. *)
Lemma request_of_another_user_not_found_witness :
  addHomeworkResponse (answer 1 (Some true)) (signed_in "bob") world4
  = (Throw request_not_found, world4)
  /\ addHomeworkResponse (answer 99 (Some true)) (signed_in "bob") world4
     = (Throw request_not_found, world4).
Proof.
  destruct request_of_another_user_not_found as (_ & Hadd & _).
  split.
  - apply (Hadd (answer 1 (Some true)) (signed_in "bob") (App.mkUser "bob") world4 1).
    + reflexivity.
    + reflexivity.
    + right. split; [exact pk_unique_world4|].
      exists "alice". split; [discriminate|].
      apply alice_owns_world4. left. reflexivity.
  - apply (Hadd (answer 99 (Some true)) (signed_in "bob") (App.mkUser "bob") world4 99).
    + reflexivity.
    + reflexivity.
    + left. intros r [<-|[<-|[]]]; discriminate.
Defined.

(** ** updateHomeworkRequest *)

Section PrimaryKey.
Context {R : Type}.
Variable key : R -> Z.

Lemma key_identifies (l : list R) (x y : R) :
  NoDup (map key l) -> In x l -> In y l -> key y = key x -> y = x.
Proof.
  intros Hnd Hx Hy Heq.
  assert (Hf : In y (filter (fun r => key r =? key x) l)).
  { apply filter_In. split; [exact Hy|]. apply Z.eqb_eq. exact Heq. }
  rewrite (filter_key_unique key l x Hnd Hx) in Hf.
  destruct Hf as [<-|[]]. reflexivity.
Qed.

(** An update by key rewrites the one row that has the key. *)
Lemma update_by_key (f : R -> R) (l : list R) (x : R) :
  NoDup (map key l) -> In x l ->
  map (fun r => if key r =? key x then f r else r) l
  = map (fun r => if key r =? key x then f x else r) l.
Proof.
  intros Hnd Hx. apply map_ext_in. intros y Hy.
  destruct (Z.eqb_spec (key y) (key x)) as [Heq|]; [|reflexivity].
  rewrite (key_identifies l x y Hnd Hx Hy Heq). reflexivity.
Qed.
End PrimaryKey.

(** No field to update is supplied. *)
Definition nothing_supplied (i : UpdateHomeworkRequest.input) : Prop :=
  UpdateHomeworkRequest.subject i = None
  /\ UpdateHomeworkRequest.gradeLevel i = None
  /\ UpdateHomeworkRequest.topic i = None
  /\ UpdateHomeworkRequest.title i = None
  /\ UpdateHomeworkRequest.questionText i = None
  /\ UpdateHomeworkRequest.attachments i = None
  /\ UpdateHomeworkRequest.status i = None.

Lemma refine_nothing_supplied i :
  UpdateHomeworkRequest.schema i = false <-> nothing_supplied i.
Proof.
  unfold UpdateHomeworkRequest.schema, UpdateHomeworkRequest.refine, nothing_supplied.
  destruct i as [id [?|] [?|] [?|] [?|] [?|] [?|] [?|]]; simpl;
    split; intros H; try discriminate H; try reflexivity;
    try (repeat split; reflexivity);
    decompose [and] H; discriminate.
Qed.

Lemma set_keeps input t r :
  HomeworkRequest.id (UpdateHomeworkRequest.set input t r) = HomeworkRequest.id r
  /\ HomeworkRequest.userId (UpdateHomeworkRequest.set input t r)
     = HomeworkRequest.userId r
  /\ HomeworkRequest.createdAt (UpdateHomeworkRequest.set input t r)
     = HomeworkRequest.createdAt r
  /\ HomeworkRequest.updatedAt (UpdateHomeworkRequest.set input t r) = t.
Proof.
  destruct input as [id [?|] [?|] [?|] [?|] [?|] [?|] [?|]]; simpl;
    repeat split; reflexivity.
Qed.

Lemma set_patches input t r :
  let r' := UpdateHomeworkRequest.set input t r in
  patched (UpdateHomeworkRequest.subject input)
          (HomeworkRequest.subject r) (HomeworkRequest.subject r')
  /\ patched (UpdateHomeworkRequest.gradeLevel input)
             (HomeworkRequest.gradeLevel r) (HomeworkRequest.gradeLevel r')
  /\ patched (UpdateHomeworkRequest.topic input)
             (HomeworkRequest.topic r) (HomeworkRequest.topic r')
  /\ patched (UpdateHomeworkRequest.title input)
             (HomeworkRequest.title r) (HomeworkRequest.title r')
  /\ patched_required (UpdateHomeworkRequest.questionText input)
             (HomeworkRequest.questionText r) (HomeworkRequest.questionText r')
  /\ patched (option_map json_record (UpdateHomeworkRequest.attachments input))
             (HomeworkRequest.attachments r) (HomeworkRequest.attachments r')
  /\ patched_required (UpdateHomeworkRequest.status input)
             (HomeworkRequest.status r) (HomeworkRequest.status r').
Proof.
  destruct input as [id [?|] [?|] [?|] [?|] [?|] [?|] [?|]]; simpl;
    repeat split; reflexivity.
Qed.

(** A JSON value without [NaN] and without an infinity. *)
Fixpoint json_finite (v : Json) : bool :=
  match v with
  | JNumber (Finite _) => true
  | JNumber _ => false
  | JArray items => forallb json_finite items
  | JObject entries =>
      forallb (fun kv => match kv with (_, x) => json_finite x end) entries
  | _ => true
  end.

Definition json_record_finite (v : JsonRecord) : bool :=
  forallb (fun kv => match kv with (_, x) => json_finite x end) v.

(** Such a value is read back from a [json] column as it was written. *)
Lemma json_column_finite : forall v, json_finite v = true -> json_column v = v.
Proof.
  fix IH 1. intros [ | b | [q| | |] | s0 | items | entries ] H; simpl in *;
    try reflexivity; try discriminate H.
  - f_equal. induction items as [|x items IHl]; [reflexivity|].
    simpl in *. apply andb_true_iff in H. destruct H as [Hx Hl].
    rewrite (IH x Hx), (IHl Hl). reflexivity.
  - f_equal. induction entries as [|[k x] entries IHl]; [reflexivity|].
    simpl in *. apply andb_true_iff in H. destruct H as [Hx Hl].
    rewrite (IH x Hx), (IHl Hl). reflexivity.
Qed.

Lemma json_record_finite_kept v : json_record_finite v = true -> json_record v = v.
Proof.
  unfold json_record_finite, json_record.
  induction v as [|[k x] v IHv]; intros H; [reflexivity|].
  simpl in *. apply andb_true_iff in H. destruct H as [Hx Hv].
  rewrite (json_column_finite x Hx), (IHv Hv). reflexivity.
Qed.

(** An update that supplies attachments holding one score. *)
Definition scored (rid : Z) (score : number) : UpdateHomeworkRequest.input :=
  UpdateHomeworkRequest.mkInput rid None None None None None
    (Some [("score", JNumber score)]) None.

(** C4, as the code has it. [updateHomeworkRequest] with no field supplied
    fails with the validation error. With at least one field supplied, on a
    request [r] the signed-in caller owns, it returns the updated row [r'],
    which replaces [r] in the requests table while every other row of the
    database stays; in [r'] each omitted field has the value it had in [r];
    a supplied subject, grade level, topic, title, question text or status
    has the supplied value; supplied attachments are the supplied record
    as the [json] column holds it, with [null] for every [NaN] and
    infinity, hence the supplied record itself when it has none; the
    identifier, owner and [createdAt] are those of [r], and [updatedAt] was
    read from the clock during the call. *)
Theorem updateHomeworkRequest_partial_update :
  forall (input : UpdateHomeworkRequest.input) (context : ActionAPIContext) (w : World),
    (nothing_supplied input ->
     updateHomeworkRequest input context w = (Throw ActionInputError, w))
    /\ (forall u r,
          ~ nothing_supplied input ->
          context_user context = Some u ->
          pk_unique HomeworkRequests (db w) ->
          In r (requests (db w)) ->
          HomeworkRequest.id r = UpdateHomeworkRequest.id input ->
          HomeworkRequest.userId r = App.id u ->
          exists r' w',
            updateHomeworkRequest input context w
            = (Ok (mkSuccess true (mkRequestData (Some r'))), w')
            /\ db w'
               = mkDatabase
                   (map (fun x => if HomeworkRequest.id x =? HomeworkRequest.id r
                                  then r' else x)
                        (requests (db w)))
                   (responses (db w)) (jobs (db w))
            /\ HomeworkRequest.id r' = HomeworkRequest.id r
            /\ HomeworkRequest.userId r' = HomeworkRequest.userId r
            /\ HomeworkRequest.createdAt r' = HomeworkRequest.createdAt r
            /\ read_during w w' (HomeworkRequest.updatedAt r')
            /\ patched (UpdateHomeworkRequest.subject input)
                 (HomeworkRequest.subject r) (HomeworkRequest.subject r')
            /\ patched (UpdateHomeworkRequest.gradeLevel input)
                 (HomeworkRequest.gradeLevel r) (HomeworkRequest.gradeLevel r')
            /\ patched (UpdateHomeworkRequest.topic input)
                 (HomeworkRequest.topic r) (HomeworkRequest.topic r')
            /\ patched (UpdateHomeworkRequest.title input)
                 (HomeworkRequest.title r) (HomeworkRequest.title r')
            /\ patched_required (UpdateHomeworkRequest.questionText input)
                 (HomeworkRequest.questionText r) (HomeworkRequest.questionText r')
            /\ patched (option_map json_record (UpdateHomeworkRequest.attachments input))
                 (HomeworkRequest.attachments r) (HomeworkRequest.attachments r')
            /\ patched_required (UpdateHomeworkRequest.status input)
                 (HomeworkRequest.status r) (HomeworkRequest.status r')
            /\ (forall v,
                  UpdateHomeworkRequest.attachments input = Some v ->
                  json_record_finite v = true ->
                  HomeworkRequest.attachments r' = Some v)).
Proof.
  intros input context w. split.
  - intros Hnone. apply defineAction_invalid.
    apply refine_nothing_supplied. exact Hnone.
  - intros u r Hsome Hu Hpk Hin Hid Huid.
    assert (Hvalid : UpdateHomeworkRequest.schema input = true).
    { destruct (UpdateHomeworkRequest.schema input) eqn:E; [reflexivity|].
      exfalso. apply Hsome. apply refine_nothing_supplied. exact E. }
    assert (Hown : owns (db w) (App.id u) (UpdateHomeworkRequest.id input)).
    { exists r. auto. }
    unfold updateHomeworkRequest. rewrite defineAction_valid by exact Hvalid.
    unfold UpdateHomeworkRequest.handler.
    step_ok (requireUser_signed_in context u w Hu).
    destruct (getOwnedRequest_owned _ _ _ Hown) as (r0 & Hget & _).
    step_ok Hget.
    unfold bind, newDate, update, ret. simpl.
    rewrite <- Hid.
    rewrite (filter_key_unique HomeworkRequest.id (requests (db w)) r Hpk Hin).
    rewrite (update_by_key HomeworkRequest.id
               (UpdateHomeworkRequest.set input (wall w (reads w)))
               (requests (db w)) r Hpk Hin).
    simpl.
    exists (UpdateHomeworkRequest.set input (wall w (reads w)) r).
    eexists. split; [reflexivity|]. simpl. split; [reflexivity|].
    destruct (set_keeps input (wall w (reads w)) r) as (K1 & K2 & K3 & K4).
    split; [exact K1|]. split; [exact K2|]. split; [exact K3|].
    split.
    + exists (reads w). simpl. split; [lia|]. exact K4.
    + pose proof (set_patches input (wall w (reads w)) r) as Hp. cbv zeta in Hp.
      destruct Hp as (P1 & P2 & P3 & P4 & P5 & P6 & P7).
      repeat (split; [assumption|]).
      intros v Hv Hfinite. rewrite Hv in P6. simpl in P6.
      rewrite P6, (json_record_finite_kept v Hfinite). reflexivity.
Qed.

(** C4, counterexample: alice supplies attachments with an infinite score
    for her request 2; the row returned has [null] for the score, not the
    supplied value. *)
Lemma attachments_not_stored_as_supplied :
  exists r',
    fst (updateHomeworkRequest (scored 2 PosInfinity) (signed_in "alice") world4)
    = Ok (mkSuccess true (mkRequestData (Some r')))
    /\ UpdateHomeworkRequest.attachments (scored 2 PosInfinity)
       = Some [("score", JNumber PosInfinity)]
    /\ HomeworkRequest.attachments r' = Some [("score", JNull)]
    /\ HomeworkRequest.attachments r' <> Some [("score", JNumber PosInfinity)].
Proof.
  eexists. split; [reflexivity|]. simpl.
  split; [reflexivity|]. split; [reflexivity|]. discriminate.
Qed.

Definition retitle (rid : Z) (title : string) : UpdateHomeworkRequest.input :=
  UpdateHomeworkRequest.mkInput rid None None None (Some title) None None None.

(** Alice retitles her request 2: the call succeeds, the title is the new
    one, the question text and the subject are the old ones. *)
Lemma updateHomeworkRequest_partial_update_witness :
  exists r' w',
    updateHomeworkRequest (retitle 2 "Sums") (signed_in "alice") world4
    = (Ok (mkSuccess true (mkRequestData (Some r'))), w')
    /\ HomeworkRequest.title r' = Some "Sums"
    /\ HomeworkRequest.questionText r' = "And 3+3?"
    /\ HomeworkRequest.subject r' = Some "Math".
Proof.
  destruct (proj2 (updateHomeworkRequest_partial_update
                     (retitle 2 "Sums") (signed_in "alice") world4)
              (App.mkUser "alice")
              (HomeworkRequest.mk 2 "alice" (Some "Math") None None None
                 "And 3+3?" None open 1001 1001))
    as (r' & w' & Hrun & _ & _ & _ & _ & _ & Hsubject & _ & _ & Htitle & Hq & _).
  - intros (_ & _ & _ & Htitle & _). discriminate Htitle.
  - reflexivity.
  - exact pk_unique_world4.
  - right. left. reflexivity.
  - reflexivity.
  - reflexivity.
  - exists r', w'. split; [exact Hrun|]. split; [exact Htitle|].
    split; [exact Hq | exact Hsubject].
Defined.

(** ** The bound on ratings *)

(** A number of the interval [1,5]. *)
Definition within_1_5 (v : number) : Prop :=
  match v with
  | Finite q => (1 <= q /\ q <= 5)%Q
  | _ => False
  end.

Lemma rating_check_within v :
  z_number_min_max (Finite 1) (Finite 5) v = true <-> within_1_5 v.
Proof.
  destruct v as [q| | |]; simpl; try (split; [discriminate|contradiction]).
  unfold number_gt. simpl. rewrite !negb_involutive, andb_true_iff.
  rewrite !Qle_bool_iff. reflexivity.
Qed.

Lemma rating_check_outside v :
  ~ within_1_5 v -> z_number_min_max (Finite 1) (Finite 5) v = false.
Proof.
  intros H. destruct (z_number_min_max (Finite 1) (Finite 5) v) eqn:E;
    [|reflexivity].
  exfalso. apply H. apply rating_check_within. exact E.
Qed.

(** C8. A rating outside [1,5] makes [addHomeworkResponse] and
    [updateHomeworkResponse] fail with the validation error before the
    handler runs, the world untouched; a rating within [1,5] passes: the
    handler runs (for [addHomeworkResponse], when the answer text is not
    empty, the other bound of its schema). *)
Theorem rating_outside_1_5_rejected :
  forall v : number,
    (~ within_1_5 v ->
     (forall (input : AddHomeworkResponse.input) context w,
        AddHomeworkResponse.rating input = Some v ->
        addHomeworkResponse input context w = (Throw ActionInputError, w))
     /\ (forall (input : UpdateHomeworkResponse.input) context w,
           UpdateHomeworkResponse.rating input = Some v ->
           updateHomeworkResponse input context w = (Throw ActionInputError, w)))
    /\ (within_1_5 v ->
        (forall (input : AddHomeworkResponse.input) context w,
           AddHomeworkResponse.rating input = Some v ->
           AddHomeworkResponse.answerText input <> "" ->
           addHomeworkResponse input context w
           = AddHomeworkResponse.handler input context w)
        /\ (forall (input : UpdateHomeworkResponse.input) context w,
              UpdateHomeworkResponse.rating input = Some v ->
              updateHomeworkResponse input context w
              = UpdateHomeworkResponse.handler input context w)).
Proof.
  intros v. split.
  - intros Hout. apply rating_check_outside in Hout.
    split; intros input context w Hr; apply defineAction_invalid.
    + unfold AddHomeworkResponse.schema. rewrite Hr. simpl. rewrite Hout.
      apply andb_false_r.
    + unfold UpdateHomeworkResponse.schema. rewrite Hr. simpl. rewrite Hout.
      reflexivity.
  - intros Hin. apply rating_check_within in Hin.
    split.
    + intros input context w Hr Htext. apply defineAction_valid.
      unfold AddHomeworkResponse.schema. rewrite Hr. simpl. rewrite Hin.
      rewrite (z_string_min_1_nonempty _ Htext). reflexivity.
    + intros input context w Hr. apply defineAction_valid.
      unfold UpdateHomeworkResponse.schema, UpdateHomeworkResponse.refine.
      rewrite Hr. simpl. rewrite Hin, orb_true_r. reflexivity.
Qed.

Lemma rating_outside_1_5_rejected_witness :
  addHomeworkResponse
    (AddHomeworkResponse.mkInput 1 "4" None None (Some (Finite 6)) None None)
    (signed_in "alice") world4 = (Throw ActionInputError, world4)
  /\ updateHomeworkResponse
       (UpdateHomeworkResponse.mkInput 1 1 None (Some (Finite (1 # 2))) None)
       (signed_in "alice") world4 = (Throw ActionInputError, world4)
  /\ updateHomeworkResponse
       (UpdateHomeworkResponse.mkInput 1 1 None (Some (Finite (7 # 2))) None)
       (signed_in "alice") world4
     = UpdateHomeworkResponse.handler
         (UpdateHomeworkResponse.mkInput 1 1 None (Some (Finite (7 # 2))) None)
         (signed_in "alice") world4.
Proof.
  split; [|split].
  - destruct (rating_outside_1_5_rejected (Finite 6)) as [Hout _].
    destruct Hout as [Hadd _].
    + unfold within_1_5, Qle. simpl. lia.
    + apply Hadd. reflexivity.
  - destruct (rating_outside_1_5_rejected (Finite (1 # 2))) as [Hout _].
    destruct Hout as [_ Hupdate].
    + unfold within_1_5, Qle. simpl. lia.
    + apply Hupdate. reflexivity.
  - destruct (rating_outside_1_5_rejected (Finite (7 # 2))) as [_ Hin].
    destruct Hin as [_ Hupdate].
    + unfold within_1_5, Qle. simpl. lia.
    + apply Hupdate. reflexivity.
Defined.

(** ** createHomeworkJob *)

(** C9. For a signed-in caller: with a [requestId] that is not the caller's
    [createHomeworkJob] fails with NOT_FOUND and inserts nothing; with
    [requestId] omitted (whatever the database holds, no request is looked
    up), or with a request of the caller, it appends one job and returns
    it, with [jobType] defaulting to [full_solution] and [status] to
    [completed]. *)
Theorem createHomeworkJob_links_owned_request :
  forall (input : CreateHomeworkJob.input) (context : ActionAPIContext)
         (u : App.User) (w : World),
    context_user context = Some u ->
    (forall rid,
       CreateHomeworkJob.requestId input = Some rid ->
       ~ owns (db w) (App.id u) rid ->
       createHomeworkJob input context w = (Throw request_not_found, w)
       /\ error_code request_not_found = NOT_FOUND)
    /\ (CreateHomeworkJob.requestId input = None
        \/ (exists rid, CreateHomeworkJob.requestId input = Some rid
                        /\ owns (db w) (App.id u) rid) ->
        exists j w',
          createHomeworkJob input context w
          = (Ok (mkSuccess true (mkJobData (Some j))), w')
          /\ db w' = mkDatabase (requests (db w)) (responses (db w))
                                (jobs (db w) ++ [j])%list
          /\ HomeworkJob.requestId j = CreateHomeworkJob.requestId input
          /\ HomeworkJob.userId j = Some (App.id u)
          /\ HomeworkJob.jobType j
             = match CreateHomeworkJob.jobType input with
               | Some t => t
               | None => full_solution
               end
          /\ HomeworkJob.status j
             = match CreateHomeworkJob.status input with
               | Some s => s
               | None => completed
               end).
Proof.
  intros input context u w Hu. split.
  - intros rid Hrid Hnot. split; [|reflexivity].
    unfold createHomeworkJob. rewrite defineAction_valid by reflexivity.
    unfold CreateHomeworkJob.handler.
    step_ok (requireUser_signed_in context u w Hu).
    rewrite Hrid. unfold bind.
    rewrite (getOwnedRequest_not_owned rid (App.id u) w Hnot). reflexivity.
  - intros Hlink.
    unfold createHomeworkJob. rewrite defineAction_valid by reflexivity.
    unfold CreateHomeworkJob.handler.
    step_ok (requireUser_signed_in context u w Hu).
    assert (Hcheck :
              match CreateHomeworkJob.requestId input with
              | Some requestId =>
                  bind (getOwnedRequest requestId (App.id u)) (fun _ => ret tt)
              | None => ret tt
              end w = (Ok tt, w)).
    { destruct Hlink as [Hnone|(rid & Hrid & Hown)].
      - rewrite Hnone. reflexivity.
      - rewrite Hrid.
        destruct (getOwnedRequest_owned _ _ _ Hown) as (r & Hget & _).
        step_ok Hget. reflexivity. }
    step_ok Hcheck.
    unfold bind, newDate, insert, ret. simpl.
    eexists. eexists. split; [reflexivity|]. simpl.
    repeat split.
Qed.

Lemma createHomeworkJob_links_owned_request_witness :
  createHomeworkJob (CreateHomeworkJob.mkInput (Some 1) None None None None)
    (signed_in "bob") world4 = (Throw request_not_found, world4)
  /\ exists j w',
       createHomeworkJob (CreateHomeworkJob.mkInput None None None None None)
         (signed_in "bob") world4 = (Ok (mkSuccess true (mkJobData (Some j))), w')
       /\ HomeworkJob.jobType j = full_solution
       /\ HomeworkJob.status j = completed.
Proof.
  split.
  - apply (proj1 (createHomeworkJob_links_owned_request
                    (CreateHomeworkJob.mkInput (Some 1) None None None None)
                    (signed_in "bob") (App.mkUser "bob") world4 eq_refl) 1).
    + reflexivity.
    + apply (foreign_request_not_owned (db world4) "alice" "bob" 1).
      * exact pk_unique_world4.
      * apply alice_owns_world4. left. reflexivity.
      * discriminate.
  - destruct (proj2 (createHomeworkJob_links_owned_request
                       (CreateHomeworkJob.mkInput None None None None None)
                       (signed_in "bob") (App.mkUser "bob") world4 eq_refl))
      as (j & w' & Hrun & _ & _ & _ & Htype & Hstatus).
    + left. reflexivity.
    + exists j, w'. auto.
Defined.

(** ** The question text is not kept non-empty *)

Definition blank_question (rid : Z) : UpdateHomeworkRequest.input :=
  UpdateHomeworkRequest.mkInput rid None None None None (Some "") None None.

(** C10. [createHomeworkRequest] refuses an empty [questionText], but
    [updateHomeworkRequest] does not: whoever is signed in, after creating
    a request with any non-empty question and updating it with
    [questionText: ""], both calls succeeding, the requests table holds
    that request with an empty question text, a row whose fields
    [createHomeworkRequest] rejects as an input. *)
Theorem questionText_can_be_emptied :
  forall (input : CreateHomeworkRequest.input) (context : ActionAPIContext)
         (u : App.User) (w : World),
    context_user context = Some u ->
    CreateHomeworkRequest.questionText input <> "" ->
    exists r w1,
      createHomeworkRequest input context w
      = (Ok (mkSuccess true (mkRequestData (Some r))), w1)
      /\ HomeworkRequest.questionText r = CreateHomeworkRequest.questionText input
      /\ UpdateHomeworkRequest.schema (blank_question (HomeworkRequest.id r)) = true
      /\ exists env w2 r',
           updateHomeworkRequest (blank_question (HomeworkRequest.id r)) context w1
           = (Ok env, w2)
           /\ In r' (requests (db w2))
           /\ HomeworkRequest.id r' = HomeworkRequest.id r
           /\ HomeworkRequest.questionText r' = ""
           /\ createHomeworkRequest
                (CreateHomeworkRequest.mkInput
                   (HomeworkRequest.subject r') (HomeworkRequest.gradeLevel r')
                   (HomeworkRequest.topic r') (HomeworkRequest.title r')
                   (HomeworkRequest.questionText r') (HomeworkRequest.attachments r'))
                context w
              = (Throw ActionInputError, w).
Proof.
  intros input context u w Hu Hq.
  unfold createHomeworkRequest.
  rewrite defineAction_valid by (apply z_string_min_1_nonempty; exact Hq).
  unfold CreateHomeworkRequest.handler.
  step_ok (requireUser_signed_in context u w Hu).
  unfold bind, newDate, insert, ret. simpl.
  unfold HomeworkRequest.written. simpl.
  eexists. eexists. split; [reflexivity|]. simpl.
  split; [reflexivity|]. split; [reflexivity|].
  set (r := HomeworkRequest.mk _ _ _ _ _ _ _ _ _ _ _).
  set (w1 := mkWorld _ _ _).
  assert (Hin : In r (requests (db w1))).
  { simpl. apply in_or_app. right. left. reflexivity. }
  assert (Hown : owns (db w1) (App.id u)
                      (UpdateHomeworkRequest.id (blank_question (HomeworkRequest.id r)))).
  { exists r. split; [exact Hin|]. split; reflexivity. }
  unfold updateHomeworkRequest. rewrite defineAction_valid by reflexivity.
  unfold UpdateHomeworkRequest.handler.
  step_ok (requireUser_signed_in context u w1 Hu).
  destruct (getOwnedRequest_owned _ _ _ Hown) as (r0 & Hget & _).
  step_ok Hget.
  unfold bind, newDate, update, ret.
  eexists. eexists.
  exists (UpdateHomeworkRequest.set (blank_question (HomeworkRequest.id r))
            (wall w1 (reads w1)) r).
  split; [reflexivity|].
  split; [|split; [reflexivity|split; reflexivity]].
  cbn [db rows_of with_rows HomeworkRequests requests].
  apply in_map_iff. exists r. split; [|exact Hin].
  cbn [UpdateHomeworkRequest.id blank_question]. rewrite Z.eqb_refl. reflexivity.
Qed.

Lemma questionText_can_be_emptied_witness :
  exists r w1,
    createHomeworkRequest (ask "What is 2+2?") (signed_in "alice") world0
    = (Ok (mkSuccess true (mkRequestData (Some r))), w1)
    /\ exists env w2 r',
         updateHomeworkRequest (blank_question (HomeworkRequest.id r))
           (signed_in "alice") w1 = (Ok env, w2)
         /\ In r' (requests (db w2))
         /\ HomeworkRequest.questionText r' = "".
Proof.
  destruct (questionText_can_be_emptied
              (ask "What is 2+2?") (signed_in "alice") (App.mkUser "alice") world0)
    as (r & w1 & Hcreate & _ & _ & env & w2 & r' & Hupdate & Hin & _ & Hq & _).
  - reflexivity.
  - discriminate.
  - exists r, w1. split; [exact Hcreate|].
    exists env, w2, r'. auto.
Defined.

(** * The server as a whole *)

(** ** The ownership resolver *)

Lemma hd_filter_holds {R : Type} (p : R -> bool) (l : list R) (y : R) :
  hd_error (filter p l) = Some y -> In y l /\ p y = true.
Proof.
  intros H. apply filter_In.
  destruct (filter p l) as [|a tl]; [discriminate|].
  injection H as ->. left. reflexivity.
Qed.

(** X1. [getOwnedRequest] never changes the world. What it returns is a row
    of the requests table with the identifier and the owner asked for (the
    only row with that identifier when keys are unique); it throws, and
    then [request_not_found], exactly when the user owns no request with
    that identifier. *)
Theorem getOwnedRequest_returns_owned_row :
  forall (requestId : Z) (userId : string) (w : World),
    match getOwnedRequest requestId userId w with
    | (Ok r, w') =>
        w' = w
        /\ In r (requests (db w))
        /\ HomeworkRequest.id r = requestId
        /\ HomeworkRequest.userId r = userId
        /\ (pk_unique HomeworkRequests (db w) ->
            forall r0, In r0 (requests (db w)) ->
                       HomeworkRequest.id r0 = requestId -> r0 = r)
    | (Throw e, w') =>
        w' = w /\ e = request_not_found /\ ~ owns (db w) userId requestId
    end.
Proof.
  intros rid uid w.
  unfold getOwnedRequest, bind, select. simpl.
  destruct (hd_error _) as [r|] eqn:E; simpl.
  - apply hd_filter_holds in E. destruct E as [Hin Hp].
    apply andb_true_iff in Hp. destruct Hp as [Hid Hu].
    apply Z.eqb_eq in Hid. apply String.eqb_eq in Hu.
    repeat split; try assumption.
    intros Hpk r0 Hin0 Hid0.
    apply (key_identifies HomeworkRequest.id (requests (db w)) r r0 Hpk Hin Hin0).
    congruence.
  - repeat split.
    intros (r & Hin & Hid & Hu).
    destruct (hd_filter_found
                (fun r => (HomeworkRequest.id r =? rid)
                          && String.eqb (HomeworkRequest.userId r) uid)
                (requests (db w)) r Hin) as (y & Hy & _).
    + rewrite Hid, Hu, Z.eqb_refl, String.eqb_refl. reflexivity.
    + rewrite Hy in E. discriminate.
Qed.

Lemma getOwnedRequest_returns_owned_row_witness :
  exists r,
    getOwnedRequest 2 "alice" world4 = (Ok r, world4)
    /\ HomeworkRequest.questionText r = "And 3+3?".
Proof.
  pose proof (getOwnedRequest_returns_owned_row 2 "alice" world4) as H.
  destruct (getOwnedRequest 2 "alice" world4) as [[r|e] w'] eqn:E.
  - destruct H as (-> & _ & _ & _ & Honly).
    exists r. split; [reflexivity|].
    rewrite <- (Honly pk_unique_world4
                  (HomeworkRequest.mk 2 "alice" (Some "Math") None None None
                     "And 3+3?" None open 1001 1001)).
    + reflexivity.
    + right. left. reflexivity.
    + reflexivity.
  - destruct H as (_ & _ & Hnot). exfalso. apply Hnot.
    apply alice_owns_world4. right. reflexivity.
Defined.

(** ** The three listings *)

Lemma RequestStatus_eqb_eq a b : RequestStatus_eqb a b = true <-> a = b.
Proof. destruct a, b; simpl; split; intros H; try reflexivity; discriminate H. Qed.

(** [input?.status] *)
Definition requested_status (input : ListHomeworkRequests.input)
  : option RequestStatus :=
  match input with
  | Some f => ListHomeworkRequests.status f
  | None => None
  end.

(** X2. For a signed-in caller [listHomeworkRequests] succeeds and changes
    nothing; [total] is the number of items; and a row is listed exactly
    when it is a request of the caller with the status asked for, if one
    is asked for. *)
Theorem listHomeworkRequests_lists_own :
  forall (input : ListHomeworkRequests.input) (context : ActionAPIContext)
         (u : App.User) (w : World),
    context_user context = Some u ->
    exists items,
      listHomeworkRequests input context w
      = (Ok (mkSuccess true (mkListData items (List.length items))), w)
      /\ forall r,
           In r items
           <-> In r (requests (db w))
               /\ HomeworkRequest.userId r = App.id u
               /\ (forall s, requested_status input = Some s ->
                             HomeworkRequest.status r = s).
Proof.
  intros input context u w Hu.
  unfold listHomeworkRequests. rewrite defineAction_valid by reflexivity.
  unfold ListHomeworkRequests.handler.
  step_ok (requireUser_signed_in context u w Hu).
  unfold bind, select, ret. simpl.
  eexists. split; [reflexivity|].
  intros r. rewrite filter_In.
  destruct input as [[[s|]]|]; simpl; rewrite ?andb_true_r, ?andb_true_iff,
    String.eqb_eq, ?RequestStatus_eqb_eq.
  - split.
    + intros (Hin & Hu' & Hs). repeat split; try assumption.
      intros s' Hs'. congruence.
    + intros (Hin & Hu' & Hs). repeat split; try assumption.
      apply Hs. reflexivity.
  - split.
    + intros (Hin & Hu'). repeat split; try assumption. intros s Hs. discriminate Hs.
    + intros (Hin & Hu' & _). split; assumption.
  - split.
    + intros (Hin & Hu'). repeat split; try assumption. intros s Hs. discriminate Hs.
    + intros (Hin & Hu' & _). split; assumption.
Qed.

(** X3. For a signed-in caller who owns the request,
    [listHomeworkResponses] succeeds and changes nothing; [total] is the
    number of items; and a row is listed exactly when it is a response of
    that request. *)
Theorem listHomeworkResponses_lists_request :
  forall (input : ListHomeworkResponses.input) (context : ActionAPIContext)
         (u : App.User) (w : World),
    context_user context = Some u ->
    owns (db w) (App.id u) (ListHomeworkResponses.requestId input) ->
    exists items,
      listHomeworkResponses input context w
      = (Ok (mkSuccess true (mkListData items (List.length items))), w)
      /\ forall r,
           In r items
           <-> In r (responses (db w))
               /\ HomeworkResponse.requestId r
                  = ListHomeworkResponses.requestId input.
Proof.
  intros input context u w Hu Hown.
  unfold listHomeworkResponses. rewrite defineAction_valid by reflexivity.
  unfold ListHomeworkResponses.handler.
  step_ok (requireUser_signed_in context u w Hu).
  destruct (getOwnedRequest_owned _ _ _ Hown) as (p & Hget & _).
  step_ok Hget.
  unfold bind, select, ret. simpl.
  eexists. split; [reflexivity|].
  intros r. rewrite filter_In, Z.eqb_eq. reflexivity.
Qed.

(** [input?.requestId] *)
Definition requested_request (input : ListHomeworkJobs.input) : option Z :=
  match input with
  | Some f => ListHomeworkJobs.requestId f
  | None => None
  end.

(** X4. For a signed-in caller [listHomeworkJobs] always succeeds, with or
    without a request filter and whoever owns the request of the filter (no
    request is looked up), and changes nothing; [total] is the number of
    items; and a row is listed exactly when it is a job whose [userId] is
    the caller's and whose [requestId] is the one asked for, if one is
    asked for. *)
Theorem listHomeworkJobs_lists_own :
  forall (input : ListHomeworkJobs.input) (context : ActionAPIContext)
         (u : App.User) (w : World),
    context_user context = Some u ->
    exists items,
      listHomeworkJobs input context w
      = (Ok (mkSuccess true (mkListData items (List.length items))), w)
      /\ forall j,
           In j items
           <-> In j (jobs (db w))
               /\ HomeworkJob.userId j = Some (App.id u)
               /\ (forall rid, requested_request input = Some rid ->
                               HomeworkJob.requestId j = Some rid).
Proof.
  intros input context u w Hu.
  unfold listHomeworkJobs. rewrite defineAction_valid by reflexivity.
  unfold ListHomeworkJobs.handler.
  step_ok (requireUser_signed_in context u w Hu).
  unfold bind, select, ret. simpl.
  eexists. split; [reflexivity|].
  intros j. rewrite filter_In.
  assert (Huser : ListHomeworkJobs.eq_nullable String.eqb (HomeworkJob.userId j) (App.id u)
                  = true <-> HomeworkJob.userId j = Some (App.id u)).
  { destruct (HomeworkJob.userId j) as [x|]; simpl.
    - rewrite String.eqb_eq. split; congruence.
    - split; discriminate. }
  assert (Hreq : forall rid,
             ListHomeworkJobs.eq_nullable Z.eqb (HomeworkJob.requestId j) rid = true
             <-> HomeworkJob.requestId j = Some rid).
  { intros rid. destruct (HomeworkJob.requestId j) as [x|]; simpl.
    - rewrite Z.eqb_eq. split; congruence.
    - split; discriminate. }
  destruct input as [[[rid|]]|]; simpl; rewrite ?andb_true_r.
  - rewrite andb_true_iff, Huser, Hreq.
    split.
    + intros (Hin & Hu' & Hr). repeat split; try assumption.
      intros rid' Hrid'. congruence.
    + intros (Hin & Hu' & Hr). repeat split; try assumption.
      apply Hr. reflexivity.
  - rewrite Huser. split.
    + intros (Hin & Hu'). repeat split; try assumption. intros s Hs. discriminate Hs.
    + intros (Hin & Hu' & _). split; assumption.
  - rewrite Huser. split.
    + intros (Hin & Hu'). repeat split; try assumption. intros s Hs. discriminate Hs.
    + intros (Hin & Hu' & _). split; assumption.
Qed.

(** ** What a call can do to the database *)

(** The errors the server throws. *)
Definition known_error (e : ActionError) : Prop :=
  e = ActionInputError \/ e = unauthorized
  \/ e = request_not_found \/ e = response_not_found.

(** A [.set(...)] on requests that writes neither the key, the owner nor
    the creation date, and one on responses that writes only the
    acceptance, the rating and the feedback. *)
Definition keeps_request (f : HomeworkRequest.row -> HomeworkRequest.row) : Prop :=
  forall r, HomeworkRequest.id (f r) = HomeworkRequest.id r
            /\ HomeworkRequest.userId (f r) = HomeworkRequest.userId r
            /\ HomeworkRequest.createdAt (f r) = HomeworkRequest.createdAt r.

Definition keeps_response (g : HomeworkResponse.row -> HomeworkResponse.row) : Prop :=
  forall r, HomeworkResponse.id (g r) = HomeworkResponse.id r
            /\ HomeworkResponse.requestId (g r) = HomeworkResponse.requestId r
            /\ HomeworkResponse.userId (g r) = HomeworkResponse.userId r
            /\ HomeworkResponse.source (g r) = HomeworkResponse.source r
            /\ HomeworkResponse.answerText (g r) = HomeworkResponse.answerText r
            /\ HomeworkResponse.steps (g r) = HomeworkResponse.steps r
            /\ HomeworkResponse.createdAt (g r) = HomeworkResponse.createdAt r.

(** The rows of a table after an update by key. *)
Definition touch {R : Type} (key : R -> Z) (k : Z) (f : R -> R) (l : list R) : list R :=
  map (fun r => if key r =? k then f r else r) l.

Lemma touch_nothing {R : Type} (key : R -> Z) (k : Z) (l : list R) :
  touch key k (fun r => r) l = l.
Proof.
  unfold touch. rewrite <- (map_id l) at 2. apply map_ext.
  intros r. destruct (key r =? k); reflexivity.
Qed.

(** The shapes of the change a successful call of user [u] makes. Where
    requests are rewritten, by [f], the rewriting keeps their status when
    the call is [quiet]. *)
Inductive Effect (quiet : Prop) (u : string) (d : Database) : Database -> Prop :=
| Eff_none : Effect quiet u d d
| Eff_new_request (r : HomeworkRequest.row) :
    HomeworkRequest.userId r = u ->
    HomeworkRequest.id r = next_id (map HomeworkRequest.id (requests d)) ->
    HomeworkRequest.status r = open ->
    Effect quiet u d (mkDatabase (requests d ++ [r]) (responses d) (jobs d))
| Eff_update_request (p : HomeworkRequest.row) f rq :
    In p (requests d) -> HomeworkRequest.userId p = u -> keeps_request f ->
    (quiet -> forall r, HomeworkRequest.status (f r) = HomeworkRequest.status r) ->
    rq = touch HomeworkRequest.id (HomeworkRequest.id p) f (requests d) ->
    Effect quiet u d (mkDatabase rq (responses d) (jobs d))
| Eff_new_response (p : HomeworkRequest.row) f rq (x : HomeworkResponse.row) :
    In p (requests d) -> HomeworkRequest.userId p = u -> keeps_request f ->
    (quiet -> forall r, HomeworkRequest.status (f r) = HomeworkRequest.status r) ->
    rq = touch HomeworkRequest.id (HomeworkRequest.id p) f (requests d) ->
    HomeworkResponse.requestId x = HomeworkRequest.id p ->
    HomeworkResponse.userId x = Some u ->
    HomeworkResponse.id x = next_id (map HomeworkResponse.id (responses d)) ->
    Effect quiet u d (mkDatabase rq (responses d ++ [x]) (jobs d))
| Eff_update_response (p : HomeworkRequest.row) f rq (x : HomeworkResponse.row) g :
    In p (requests d) -> HomeworkRequest.userId p = u -> keeps_request f ->
    (quiet -> forall r, HomeworkRequest.status (f r) = HomeworkRequest.status r) ->
    rq = touch HomeworkRequest.id (HomeworkRequest.id p) f (requests d) ->
    In x (responses d) ->
    HomeworkResponse.requestId x = HomeworkRequest.id p ->
    keeps_response g ->
    Effect quiet u d
      (mkDatabase rq
         (touch HomeworkResponse.id (HomeworkResponse.id x) g (responses d))
         (jobs d))
| Eff_new_job (j : HomeworkJob.row) :
    HomeworkJob.userId j = Some u ->
    HomeworkJob.id j = next_id (map HomeworkJob.id (jobs d)) ->
    (forall rid, HomeworkJob.requestId j = Some rid ->
                 exists p, In p (requests d)
                           /\ HomeworkRequest.id p = rid
                           /\ HomeworkRequest.userId p = u) ->
    Effect quiet u d (mkDatabase (requests d) (responses d) (jobs d ++ [j])).

Lemma Effect_weaken (quiet quiet' : Prop) u d d' :
  (quiet' -> quiet) -> Effect quiet u d d' -> Effect quiet' u d d'.
Proof.
  intros Hq Heff.
  destruct Heff as [ | r Hu Hid Hopen | p f rq Hin Hu Hf Hs E | p f rq x Hin Hu Hf Hs E Hx Hxu Hxid
                   | p f rq x g Hin Hu Hf Hs E Hxin Hx Hg | j Hju Hjid Hj ].
  - apply Eff_none.
  - apply Eff_new_request; assumption.
  - apply (Eff_update_request _ _ _ p f); auto.
  - apply (Eff_new_response _ _ _ p f); auto.
  - apply (Eff_update_response _ _ _ p f); auto.
  - apply Eff_new_job; assumption.
Qed.

(** A call that throws leaves the world as it was and throws one of the
    known errors; a call that returns was made by a signed-in user, made
    one of the changes above and at most read the clock. *)
Definition effect_of {A : Type} (quiet : Prop) (context : ActionAPIContext)
    (w : World) (result : Outcome A * World) : Prop :=
  match result with
  | (Throw e, w') => w' = w /\ known_error e
  | (Ok _, w') =>
      exists u, context_user context = Some u
                /\ Effect quiet (App.id u) (db w) (db w')
                /\ wall w' = wall w /\ (reads w <= reads w')%nat
  end.

Lemma set_status_keeps s t :
  keeps_request (fun r => HomeworkRequest.set_updatedAt t (HomeworkRequest.set_status s r)).
Proof. intros r. repeat split. Qed.

Lemma request_set_keeps input t : keeps_request (UpdateHomeworkRequest.set input t).
Proof.
  intros r. destruct (set_keeps input t r) as (H1 & H2 & H3 & _). auto.
Qed.

Lemma request_set_keeps_status input t r :
  UpdateHomeworkRequest.status input = None ->
  HomeworkRequest.status (UpdateHomeworkRequest.set input t r)
  = HomeworkRequest.status r.
Proof.
  intros Hs. pose proof (set_patches input t r) as H. cbv zeta in H.
  destruct H as (_ & _ & _ & _ & _ & _ & H). rewrite Hs in H. exact H.
Qed.

Lemma response_set_keeps input : keeps_response (UpdateHomeworkResponse.set input).
Proof.
  intros r. destruct input as [id rid [?|] [?|] [?|]]; simpl; repeat split.
Qed.

Lemma keeps_request_id : keeps_request (fun r => r).
Proof. intros r. repeat split. Qed.

(** The first two steps of an action: the schema, then [requireUser]. *)
Ltac enter_action Hvalid u Hu :=
  match goal with
  | |- effect_of _ ?context ?w (defineAction ?schema ?handler ?i ?context ?w) =>
      destruct (schema i) eqn:Hvalid;
      [ rewrite defineAction_valid by exact Hvalid
      | rewrite defineAction_invalid by exact Hvalid;
        split; [reflexivity | left; reflexivity] ];
      unfold handler;
      destruct (context_user context) as [u|] eqn:Hu;
      [ step_ok (requireUser_signed_in context u w Hu)
      | step_throw (requireUser_anonymous context w Hu);
        split; [reflexivity | right; left; reflexivity] ]
  end.

(** The ownership check: either it throws or it yields the parent [p]. *)
Ltac check_owner rid u w p Hin Hid Hown :=
  let Hg := fresh "Hg" in
  let Hget := fresh "Hget" in
  let e := fresh "e" in
  let w1 := fresh "w" in
  pose proof (getOwnedRequest_returns_owned_row rid (App.id u) w) as Hg;
  destruct (getOwnedRequest rid (App.id u) w) as [[p|e] w1] eqn:Hget;
  [ destruct Hg as (-> & Hin & Hid & Hown & _)
  | destruct Hg as (-> & -> & _) ].

Ltac succeed u Hu :=
  exists u; (split; [exact Hu|]); (split; [|split; [reflexivity|simpl; lia]]).

Ltac fail_not_found :=
  split; [reflexivity|]; right; right; left; reflexivity.

Lemma createHomeworkRequest_effect i context w :
  effect_of True context w (createHomeworkRequest i context w).
Proof.
  unfold createHomeworkRequest. enter_action Hvalid u Hu.
  unfold bind, newDate, insert, ret. simpl. succeed u Hu.
  apply Eff_new_request; reflexivity.
Qed.

Lemma updateHomeworkRequest_effect i context w :
  effect_of (UpdateHomeworkRequest.status i = None) context w
            (updateHomeworkRequest i context w).
Proof.
  unfold updateHomeworkRequest. enter_action Hvalid u Hu.
  check_owner (UpdateHomeworkRequest.id i) u w p Hin Hid Hown.
  - step_ok Hget. unfold bind, newDate, update, ret. simpl. succeed u Hu.
    apply (Eff_update_request _ _ _ p (UpdateHomeworkRequest.set i (wall w (reads w))));
      [ exact Hin | exact Hown | apply request_set_keeps
      | intros Hs r; apply request_set_keeps_status; exact Hs
      | rewrite Hid; reflexivity ].
  - step_throw Hget. fail_not_found.
Qed.

Lemma listHomeworkRequests_effect i context w :
  effect_of True context w (listHomeworkRequests i context w).
Proof.
  unfold listHomeworkRequests. enter_action Hvalid u Hu.
  unfold bind, select, ret. simpl. succeed u Hu. apply Eff_none.
Qed.

Lemma listHomeworkJobs_effect i context w :
  effect_of True context w (listHomeworkJobs i context w).
Proof.
  unfold listHomeworkJobs. enter_action Hvalid u Hu.
  unfold bind, select, ret. simpl. succeed u Hu. apply Eff_none.
Qed.

Lemma listHomeworkResponses_effect i context w :
  effect_of True context w (listHomeworkResponses i context w).
Proof.
  unfold listHomeworkResponses. enter_action Hvalid u Hu.
  check_owner (ListHomeworkResponses.requestId i) u w p Hin Hid Hown.
  - step_ok Hget. unfold bind, select, ret. simpl. succeed u Hu. apply Eff_none.
  - step_throw Hget. fail_not_found.
Qed.

Lemma addHomeworkResponse_effect i context w :
  effect_of (AddHomeworkResponse.truthy (AddHomeworkResponse.isAccepted i) = false)
            context w (addHomeworkResponse i context w).
Proof.
  unfold addHomeworkResponse. enter_action Hvalid u Hu.
  check_owner (AddHomeworkResponse.requestId i) u w p Hin Hid Hown.
  - step_ok Hget. unfold bind, newDate, insert, update, ret.
    destruct (AddHomeworkResponse.truthy (AddHomeworkResponse.isAccepted i));
      simpl; succeed u Hu.
    + eapply (Eff_new_response _ _ _ p
                (fun r => HomeworkRequest.set_updatedAt (wall w (S (reads w)))
                            (HomeworkRequest.set_status answered r)));
        try reflexivity; try assumption;
        [ apply set_status_keeps | intros Hq; discriminate Hq
        | rewrite Hid; reflexivity | simpl; congruence ].
    + eapply (Eff_new_response _ _ _ p (fun r => r));
        try reflexivity; try assumption;
        [ apply keeps_request_id | symmetry; apply touch_nothing
        | simpl; congruence ].
  - step_throw Hget. fail_not_found.
Qed.

Lemma updateHomeworkResponse_effect i context w :
  effect_of (UpdateHomeworkResponse.isAccepted i = None) context w
            (updateHomeworkResponse i context w).
Proof.
  unfold updateHomeworkResponse. enter_action Hvalid u Hu.
  check_owner (UpdateHomeworkResponse.requestId i) u w p Hin Hid Hown.
  - step_ok Hget. unfold bind, select. simpl.
    destruct (hd_error _) as [x|] eqn:Hx.
    + apply hd_filter_holds in Hx. destruct Hx as [Hxin Hxp].
      apply andb_true_iff in Hxp. destruct Hxp as [Hxid Hxrid].
      apply Z.eqb_eq in Hxid. apply Z.eqb_eq in Hxrid.
      unfold newDate, update, ret.
      destruct (UpdateHomeworkResponse.isAccepted i) as [b|];
        simpl; succeed u Hu; rewrite <- Hxid.
      * eapply (Eff_update_response _ _ _ p
                  (fun r => HomeworkRequest.set_updatedAt (wall w (reads w))
                              (HomeworkRequest.set_status
                                 (if b then answered else open) r)));
          try reflexivity; try assumption;
          [ apply set_status_keeps | intros Hq; discriminate Hq
          | rewrite Hid; reflexivity | congruence | apply response_set_keeps ].
      * eapply (Eff_update_response _ _ _ p (fun r => r));
          try reflexivity; try assumption;
          [ apply keeps_request_id | symmetry; apply touch_nothing | congruence
          | apply response_set_keeps ].
    + split; [reflexivity|]. right. right. right. reflexivity.
  - step_throw Hget. fail_not_found.
Qed.

Lemma createHomeworkJob_effect i context w :
  effect_of True context w (createHomeworkJob i context w).
Proof.
  unfold createHomeworkJob. enter_action Hvalid u Hu.
  destruct (CreateHomeworkJob.requestId i) as [rid|] eqn:Hrid.
  - unfold bind at 1. unfold bind at 1.
    check_owner rid u w p Hin Hid Hown.
    + unfold bind, newDate, insert, ret. simpl. succeed u Hu.
      apply Eff_new_job; try reflexivity.
      simpl. intros rid' Hrid'. injection Hrid' as <-.
      exists p. auto.
    + fail_not_found.
  - unfold bind, newDate, insert, ret. simpl. succeed u Hu.
    apply Eff_new_job; try reflexivity.
    simpl. intros rid' Hrid'. discriminate Hrid'.
Qed.

(** ** The exported [server] object *)

(** A call names one of the eight actions of [server] and carries its
    input. *)
Inductive Call : Type :=
| CreateHomeworkRequestCall (input : CreateHomeworkRequest.input)
| UpdateHomeworkRequestCall (input : UpdateHomeworkRequest.input)
| ListHomeworkRequestsCall (input : ListHomeworkRequests.input)
| AddHomeworkResponseCall (input : AddHomeworkResponse.input)
| UpdateHomeworkResponseCall (input : UpdateHomeworkResponse.input)
| ListHomeworkResponsesCall (input : ListHomeworkResponses.input)
| CreateHomeworkJobCall (input : CreateHomeworkJob.input)
| ListHomeworkJobsCall (input : ListHomeworkJobs.input).

(** The error of an outcome, if any, with the returned value forgotten. *)
Definition thrown {A : Type} (result : Outcome A * World) : option ActionError * World :=
  match result with
  | (Ok _, w) => (None, w)
  | (Throw e, w) => (Some e, w)
  end.

Definition server (call : Call) (context : ActionAPIContext) (w : World)
  : option ActionError * World :=
  match call with
  | CreateHomeworkRequestCall input => thrown (createHomeworkRequest input context w)
  | UpdateHomeworkRequestCall input => thrown (updateHomeworkRequest input context w)
  | ListHomeworkRequestsCall input => thrown (listHomeworkRequests input context w)
  | AddHomeworkResponseCall input => thrown (addHomeworkResponse input context w)
  | UpdateHomeworkResponseCall input => thrown (updateHomeworkResponse input context w)
  | ListHomeworkResponsesCall input => thrown (listHomeworkResponses input context w)
  | CreateHomeworkJobCall input => thrown (createHomeworkJob input context w)
  | ListHomeworkJobsCall input => thrown (listHomeworkJobs input context w)
  end.

(** A sequence of calls, each with the context it is made in. *)
Fixpoint serve (calls : list (Call * ActionAPIContext)) (w : World) : World :=
  match calls with
  | [] => w
  | (call, context) :: rest => serve rest (snd (server call context w))
  end.

(** The calls whose input asks, directly or by an acceptance, for a change
    of the status of a request. *)
Definition writes_status (call : Call) : bool :=
  match call with
  | UpdateHomeworkRequestCall input => defined (UpdateHomeworkRequest.status input)
  | AddHomeworkResponseCall input =>
      AddHomeworkResponse.truthy (AddHomeworkResponse.isAccepted input)
  | UpdateHomeworkResponseCall input =>
      defined (UpdateHomeworkResponse.isAccepted input)
  | _ => false
  end.

Lemma effect_of_weaken {A : Type} (quiet quiet' : Prop) context w
    (result : Outcome A * World) :
  (quiet' -> quiet) -> effect_of quiet context w result ->
  effect_of quiet' context w result.
Proof.
  intros Hq. destruct result as [[a|e] w']; simpl; [|auto].
  intros (u & Hu & Heff & Hrest). exists u. split; [exact Hu|].
  split; [exact (Effect_weaken _ _ _ _ _ Hq Heff)|exact Hrest].
Qed.

Lemma thrown_effect {A : Type} quiet context w (result : Outcome A * World) :
  effect_of quiet context w result ->
  match thrown result with
  | (Some e, w') => w' = w /\ known_error e
  | (None, w') =>
      exists u, context_user context = Some u
                /\ Effect quiet (App.id u) (db w) (db w')
                /\ wall w' = wall w /\ (reads w <= reads w')%nat
  end.
Proof. destruct result as [[a|e] w']; simpl; auto. Qed.

Lemma server_effect call context w :
  match server call context w with
  | (Some e, w') => w' = w /\ known_error e
  | (None, w') =>
      exists u, context_user context = Some u
                /\ Effect (writes_status call = false) (App.id u) (db w) (db w')
                /\ wall w' = wall w /\ (reads w <= reads w')%nat
  end.
Proof.
  destruct call; simpl; apply thrown_effect.
  - apply (effect_of_weaken True); [auto|apply createHomeworkRequest_effect].
  - apply (effect_of_weaken (UpdateHomeworkRequest.status input = None)).
    + destruct (UpdateHomeworkRequest.status input); [discriminate|reflexivity].
    + apply updateHomeworkRequest_effect.
  - apply (effect_of_weaken True); [auto|apply listHomeworkRequests_effect].
  - apply addHomeworkResponse_effect.
  - apply (effect_of_weaken (UpdateHomeworkResponse.isAccepted input = None)).
    + destruct (UpdateHomeworkResponse.isAccepted input); [discriminate|reflexivity].
    + apply updateHomeworkResponse_effect.
  - apply (effect_of_weaken True); [auto|apply listHomeworkResponses_effect].
  - apply (effect_of_weaken True); [auto|apply createHomeworkJob_effect].
  - apply (effect_of_weaken True); [auto|apply listHomeworkJobs_effect].
Qed.

(** The database after a call is the one before, or the one before
    changed in one of the ways of [Effect] by the signed-in caller. *)
Lemma server_changes call context w :
  db (snd (server call context w)) = db w
  \/ exists u, context_user context = Some u
               /\ Effect (writes_status call = false) (App.id u) (db w)
                         (db (snd (server call context w))).
Proof.
  pose proof (server_effect call context w) as H.
  destruct (server call context w) as [[e|] w']; simpl.
  - destruct H as [-> _]. left. reflexivity.
  - destruct H as (u & Hu & Heff & _). right. exists u. auto.
Qed.

(** ** Rows under an update by key or an insert *)

Section Touch.
Context {R : Type}.
Variable key : R -> Z.

Lemma touch_keys (k : Z) (f : R -> R) (l : list R) :
  (forall r, key (f r) = key r) -> map key (touch key k f l) = map key l.
Proof.
  intros Hf. unfold touch. rewrite map_map. apply map_ext.
  intros r. destruct (key r =? k); [apply Hf|reflexivity].
Qed.

Lemma touch_other (k : Z) (f : R -> R) (l : list R) (r : R) :
  In r l -> key r <> k -> In r (touch key k f l).
Proof.
  intros Hin Hne. unfold touch. apply in_map_iff. exists r.
  split; [|exact Hin]. apply Z.eqb_neq in Hne. rewrite Hne. reflexivity.
Qed.

(** Every row is, after the update, itself or its image. *)
Lemma touch_image (k : Z) (f : R -> R) (l : list R) (r : R) :
  In r l -> In r (touch key k f l) \/ In (f r) (touch key k f l).
Proof.
  intros Hin. destruct (Z.eqb_spec (key r) k) as [Heq|Hne].
  - right. unfold touch. apply in_map_iff. exists r.
    split; [|exact Hin]. apply Z.eqb_eq in Heq. rewrite Heq. reflexivity.
  - left. apply touch_other; assumption.
Qed.

(** Every row after the update is a former row or the image of one. *)
Lemma touch_origin (k : Z) (f : R -> R) (l : list R) (r' : R) :
  In r' (touch key k f l) -> exists r, In r l /\ (r' = r \/ r' = f r).
Proof.
  unfold touch. intros Hin. apply in_map_iff in Hin.
  destruct Hin as (r & Hr & Hin). exists r. split; [exact Hin|].
  destruct (key r =? k); auto.
Qed.

Lemma append_fresh (l : list R) (x : R) :
  key x = next_id (map key l) -> NoDup (map key l) -> NoDup (map key (l ++ [x])).
Proof.
  intros Hx Hnd. rewrite map_app. simpl.
  apply NoDup_app; [exact Hnd | repeat constructor; intros [] | ].
  intros k Hk [<-|[]].
  apply in_map_iff in Hk. destruct Hk as (y & Hy & Hin).
  apply (next_id_fresh key l y Hin). congruence.
Qed.
End Touch.

(** ** Invariants of the database *)

(** The primary key constraints of the three tables. *)
Definition keys_unique (d : Database) : Prop :=
  pk_unique HomeworkRequests d
  /\ pk_unique HomeworkResponses d
  /\ pk_unique HomeworkJobs d.

(** Every response hangs under a request of the user recorded in the
    response, and so does every job that names a request. *)
Definition linked (d : Database) : Prop :=
  (forall x, In x (responses d) ->
             exists p, In p (requests d)
                       /\ HomeworkRequest.id p = HomeworkResponse.requestId x
                       /\ Some (HomeworkRequest.userId p) = HomeworkResponse.userId x)
  /\ (forall j rid, In j (jobs d) -> HomeworkJob.requestId j = Some rid ->
                    exists p, In p (requests d)
                              /\ HomeworkRequest.id p = rid
                              /\ Some (HomeworkRequest.userId p) = HomeworkJob.userId j).

Lemma Effect_keys quiet u d d' :
  Effect quiet u d d' -> keys_unique d -> keys_unique d'.
Proof.
  intros Heff (Hrq & Hrs & Hjb).
  destruct Heff as [ | r Hu Hid Hopen | p f rq Hin Hu Hf _ ->
                   | p f rq x Hin Hu Hf _ -> Hx Hxu Hxid
                   | p f rq x g Hin Hu Hf _ -> Hxin Hx Hg | j Hju Hjid Hj ];
    unfold keys_unique, pk_unique in *; simpl in *.
  - auto.
  - split; [|auto]. apply (append_fresh HomeworkRequest.id); assumption.
  - split; [|auto]. rewrite touch_keys; [assumption|]. intros r. apply Hf.
  - split; [|split; [|assumption]].
    + rewrite touch_keys; [assumption|]. intros r. apply Hf.
    + apply (append_fresh HomeworkResponse.id); assumption.
  - split; [|split; [|assumption]].
    + rewrite touch_keys; [assumption|]. intros r. apply Hf.
    + rewrite touch_keys; [assumption|]. intros r. apply Hg.
  - split; [|split]; try assumption.
    apply (append_fresh HomeworkJob.id); assumption.
Qed.

Lemma touch_parent k f l p :
  keeps_request f -> In p l ->
  exists p', In p' (touch HomeworkRequest.id k f l)
             /\ HomeworkRequest.id p' = HomeworkRequest.id p
             /\ HomeworkRequest.userId p' = HomeworkRequest.userId p
             /\ HomeworkRequest.createdAt p' = HomeworkRequest.createdAt p.
Proof.
  intros Hf Hin.
  destruct (touch_image HomeworkRequest.id k f l p Hin) as [H|H].
  - exists p. auto.
  - exists (f p). split; [exact H|]. apply Hf.
Qed.

Lemma Effect_linked quiet u d d' :
  Effect quiet u d d' -> linked d -> linked d'.
Proof.
  intros Heff (Hrs & Hjb).
  assert (Hup : forall k f, keeps_request f ->
            linked (mkDatabase (touch HomeworkRequest.id k f (requests d))
                               (responses d) (jobs d))).
  { intros k f Hf. split; simpl.
    - intros x Hx. destruct (Hrs x Hx) as (p & Hp & Hid & Hu).
      destruct (touch_parent k f _ p Hf Hp) as (p' & Hp' & Hid' & Hu' & _).
      exists p'. split; [exact Hp'|]. split; congruence.
    - intros j rid Hj Hrid. destruct (Hjb j rid Hj Hrid) as (p & Hp & Hid & Hu).
      destruct (touch_parent k f _ p Hf Hp) as (p' & Hp' & Hid' & Hu' & _).
      exists p'. split; [exact Hp'|]. split; congruence. }
  destruct Heff as [ | r Hu Hid Hopen | p f rq Hin Hu Hf _ ->
                   | p f rq x Hin Hu Hf _ -> Hx Hxu Hxid
                   | p f rq x g Hin Hu Hf _ -> Hxin Hx Hg | j Hju Hjid Hj ].
  - split; assumption.
  - split; simpl.
    + intros x Hx. destruct (Hrs x Hx) as (p & Hp & Hrest).
      exists p. split; [apply in_or_app; left; exact Hp | exact Hrest].
    + intros j rid Hj Hrid. destruct (Hjb j rid Hj Hrid) as (p & Hp & Hrest).
      exists p. split; [apply in_or_app; left; exact Hp | exact Hrest].
  - apply Hup. exact Hf.
  - destruct (Hup (HomeworkRequest.id p) f Hf) as (Hrs' & Hjb'). simpl in *.
    split; simpl; [|exact Hjb'].
    intros y Hy. apply in_app_or in Hy. destruct Hy as [Hy|[<-|[]]].
    + apply Hrs'. exact Hy.
    + destruct (touch_parent (HomeworkRequest.id p) f _ p Hf Hin)
        as (p' & Hp' & Hid' & Hu' & _).
      exists p'. split; [exact Hp'|]. split; congruence.
  - destruct (Hup (HomeworkRequest.id p) f Hf) as (Hrs' & Hjb'). simpl in *.
    split; simpl; [|exact Hjb'].
    intros y Hy.
    apply touch_origin in Hy. destruct Hy as (y0 & Hy0 & Hy).
    destruct (Hrs' y0 Hy0) as (p' & Hp' & Hid' & Hu').
    exists p'. split; [exact Hp'|].
    destruct Hy as [->| ->]; [auto|].
    destruct (Hg y0) as (_ & Hg2 & Hg3 & _). split; congruence.
  - split; simpl; [exact Hrs|].
    intros j' rid Hj' Hrid. apply in_app_or in Hj'. destruct Hj' as [Hj'|[<-|[]]].
    + apply (Hjb j' rid Hj' Hrid).
    + destruct (Hj rid Hrid) as (p & Hp & Hid & Hpu).
      exists p. split; [exact Hp|]. split; congruence.
Qed.

(** ** Properties of every call *)



(** X6. Every call keeps the primary keys of the three tables unique. *)
Theorem calls_keep_keys_unique :
  forall (call : Call) (context : ActionAPIContext) (w : World),
    keys_unique (db w) -> keys_unique (db (snd (server call context w))).
Proof.
  intros call context w Hkeys.
  destruct (server_changes call context w) as [->|(u & _ & Heff)].
  - exact Hkeys.
  - exact (Effect_keys _ _ _ _ Heff Hkeys).
Qed.

Lemma keys_unique_empty : keys_unique empty_db.
Proof. repeat split; constructor. Qed.

Lemma keys_unique_world4 : keys_unique (db world4).
Proof.
  split; [|split]; unfold pk_unique; simpl;
    repeat (constructor; [simpl; intuition discriminate|]); constructor.
Qed.

(** Alice answers her request 2 in [world4], where two requests and two
    responses are stored. *)
Lemma calls_keep_keys_unique_witness :
  keys_unique
    (db (snd (server (AddHomeworkResponseCall (answer 2 None))
                     (signed_in "alice") world4))).
Proof.
  apply (calls_keep_keys_unique
           (AddHomeworkResponseCall (answer 2 None)) (signed_in "alice") world4).
  exact keys_unique_world4.
Defined.

Lemma linked_empty : linked empty_db.
Proof. split; [intros x []|intros j rid []]. Qed.

Lemma serve_invariant (P : Database -> Prop) :
  (forall call context w, P (db w) -> P (db (snd (server call context w)))) ->
  forall calls w, P (db w) -> P (db (serve calls w)).
Proof.
  intros Hstep calls. induction calls as [|[call context] rest IH]; intros w Hw.
  - exact Hw.
  - simpl. apply IH. apply Hstep. exact Hw.
Qed.

(** X7. Starting from the empty database, after any sequence of calls, by
    any users, valid or not: the primary keys are unique, every response
    hangs under an existing request whose owner is the user recorded in the
    response, and every job that names a request names an existing request
    of the user recorded in the job. *)
Theorem served_database_is_consistent :
  forall (calls : list (Call * ActionAPIContext)) (clock : nat -> Date) (n : nat),
    let d := db (serve calls (mkWorld empty_db clock n)) in
    keys_unique d /\ linked d.
Proof.
  intros calls clock n.
  apply (serve_invariant (fun d => keys_unique d /\ linked d)).
  - intros call context w [Hkeys Hlinked].
    destruct (server_changes call context w) as [->|(u & _ & Heff)].
    + split; assumption.
    + split; [exact (Effect_keys _ _ _ _ Heff Hkeys)
             | exact (Effect_linked _ _ _ _ Heff Hlinked)].
  - split; [exact keys_unique_empty | exact linked_empty].
Qed.

(** The columns of a request that no call writes, and those of a
    response. *)
Definition same_request (r r' : HomeworkRequest.row) : Prop :=
  HomeworkRequest.id r' = HomeworkRequest.id r
  /\ HomeworkRequest.userId r' = HomeworkRequest.userId r
  /\ HomeworkRequest.createdAt r' = HomeworkRequest.createdAt r.

Definition same_response (x x' : HomeworkResponse.row) : Prop :=
  HomeworkResponse.id x' = HomeworkResponse.id x
  /\ HomeworkResponse.requestId x' = HomeworkResponse.requestId x
  /\ HomeworkResponse.userId x' = HomeworkResponse.userId x
  /\ HomeworkResponse.source x' = HomeworkResponse.source x
  /\ HomeworkResponse.answerText x' = HomeworkResponse.answerText x
  /\ HomeworkResponse.steps x' = HomeworkResponse.steps x
  /\ HomeworkResponse.createdAt x' = HomeworkResponse.createdAt x.

Definition persists (d d' : Database) : Prop :=
  (forall r, In r (requests d) -> exists r', In r' (requests d') /\ same_request r r')
  /\ (forall x, In x (responses d) ->
                exists x', In x' (responses d') /\ same_response x x')
  /\ (forall j, In j (jobs d) -> In j (jobs d')).

Lemma persists_refl d : persists d d.
Proof.
  repeat split; try (intros y Hy; exists y; split; [exact Hy|repeat split]).
  intros j Hj. exact Hj.
Qed.

Lemma Effect_persists quiet u d d' : Effect quiet u d d' -> persists d d'.
Proof.
  intros Heff.
  assert (Hrq : forall k f, keeps_request f ->
            forall r, In r (requests d) ->
            exists r', In r' (touch HomeworkRequest.id k f (requests d))
                       /\ same_request r r').
  { intros k f Hf r Hr. destruct (touch_parent k f _ r Hf Hr) as (r' & H1 & H2).
    exists r'. split; [exact H1|exact H2]. }
  assert (Hsame : forall x, In x (responses d) ->
            exists x', In x' (responses d) /\ same_response x x').
  { intros x Hx. exists x. split; [exact Hx|repeat split]. }
  destruct Heff as [ | r Hu Hid Hopen | p f rq Hin Hu Hf _ ->
                   | p f rq x Hin Hu Hf _ -> Hx Hxu Hxid
                   | p f rq x g Hin Hu Hf _ -> Hxin Hx Hg | j Hju Hjid Hj ].
  - apply persists_refl.
  - split; [|split]; simpl; [|exact Hsame|auto].
    intros r0 Hr0. exists r0. split; [apply in_or_app; left; exact Hr0|repeat split].
  - split; [|split]; simpl; [apply Hrq; exact Hf|exact Hsame|auto].
  - split; [|split]; simpl; [apply Hrq; exact Hf| |auto].
    intros y Hy. exists y. split; [apply in_or_app; left; exact Hy|repeat split].
  - split; [|split]; simpl; [apply Hrq; exact Hf| |auto].
    intros y Hy.
    destruct (touch_image HomeworkResponse.id (HomeworkResponse.id x) g _ y Hy)
      as [H|H].
    + exists y. split; [exact H|repeat split].
    + exists (g y). split; [exact H|]. apply Hg.
  - split; [|split]; simpl; [|exact Hsame|].
    + intros r0 Hr0. exists r0. split; [exact Hr0|repeat split].
    + intros j0 Hj0. apply in_or_app. left. exact Hj0.
Qed.

(** X8. No call deletes a row, moves a request to another user or rewrites
    what was asked or answered: after any call every request is still in
    its table with the same identifier, owner and creation date, every
    response with the same identifier, parent request, author, source,
    answer text, steps and creation date, and every job unchanged. *)
Theorem rows_are_never_deleted :
  forall (call : Call) (context : ActionAPIContext) (w : World),
    let d' := db (snd (server call context w)) in
    (forall r, In r (requests (db w)) ->
               exists r', In r' (requests d')
                          /\ HomeworkRequest.id r' = HomeworkRequest.id r
                          /\ HomeworkRequest.userId r' = HomeworkRequest.userId r
                          /\ HomeworkRequest.createdAt r' = HomeworkRequest.createdAt r)
    /\ (forall x, In x (responses (db w)) ->
                  exists x', In x' (responses d')
                             /\ HomeworkResponse.id x' = HomeworkResponse.id x
                             /\ HomeworkResponse.requestId x'
                                = HomeworkResponse.requestId x
                             /\ HomeworkResponse.userId x' = HomeworkResponse.userId x
                             /\ HomeworkResponse.source x' = HomeworkResponse.source x
                             /\ HomeworkResponse.answerText x'
                                = HomeworkResponse.answerText x
                             /\ HomeworkResponse.steps x' = HomeworkResponse.steps x
                             /\ HomeworkResponse.createdAt x'
                                = HomeworkResponse.createdAt x)
    /\ (forall j, In j (jobs (db w)) -> In j (jobs d')).
Proof.
  intros call context w.
  assert (H : persists (db w) (db (snd (server call context w)))).
  { destruct (server_changes call context w) as [->|(u & _ & Heff)].
    - apply persists_refl.
    - exact (Effect_persists _ _ _ _ Heff). }
  exact H.
Qed.

Lemma Effect_others quiet u d d' :
  Effect quiet u d d' ->
  pk_unique HomeworkRequests d -> pk_unique HomeworkResponses d ->
  (forall r, In r (requests d) -> HomeworkRequest.userId r <> u ->
             In r (requests d'))
  /\ (forall x, In x (responses d) -> ~ owns d u (HomeworkResponse.requestId x) ->
                In x (responses d')).
Proof.
  intros Heff Hrq Hrs.
  assert (Htouch : forall p f, In p (requests d) -> HomeworkRequest.userId p = u ->
            forall r, In r (requests d) -> HomeworkRequest.userId r <> u ->
            In r (touch HomeworkRequest.id (HomeworkRequest.id p) f (requests d))).
  { intros p f Hp Hpu r Hr Hru. apply touch_other; [exact Hr|].
    intros Heq. apply Hru.
    rewrite (key_identifies HomeworkRequest.id (requests d) p r Hrq Hp Hr Heq).
    exact Hpu. }
  destruct Heff as [ | r Hu Hid Hopen | p f rq Hin Hu Hf _ ->
                   | p f rq x Hin Hu Hf _ -> Hx Hxu Hxid
                   | p f rq x g Hin Hu Hf _ -> Hxin Hx Hg | j Hju Hjid Hj ]; simpl.
  - auto.
  - split; [|auto]. intros r0 Hr0 _. apply in_or_app. left. exact Hr0.
  - split; [|auto]. apply Htouch; assumption.
  - split; [apply Htouch; assumption|].
    intros y Hy _. apply in_or_app. left. exact Hy.
  - split; [apply Htouch; assumption|].
    intros y Hy Hnot. apply touch_other; [exact Hy|].
    intros Heq. apply Hnot.
    rewrite (key_identifies HomeworkResponse.id (responses d) x y Hrs Hxin Hy Heq).
    exists p. auto.
  - auto.
Qed.

(** X9. A call touches only what belongs to its caller. When the keys of
    requests and responses are unique, after any call every request of
    another user, and every response under a request the caller does not
    own, is in its table exactly as it was; this covers the calls made
    without a signed-in user. *)
Theorem calls_touch_only_own_rows :
  forall (call : Call) (context : ActionAPIContext) (w : World),
    pk_unique HomeworkRequests (db w) ->
    pk_unique HomeworkResponses (db w) ->
    let d' := db (snd (server call context w)) in
    (forall r,
       In r (requests (db w)) ->
       (forall u, context_user context = Some u ->
                  HomeworkRequest.userId r <> App.id u) ->
       In r (requests d'))
    /\ (forall x,
          In x (responses (db w)) ->
          (forall u, context_user context = Some u ->
                     ~ owns (db w) (App.id u) (HomeworkResponse.requestId x)) ->
          In x (responses d')).
Proof.
  intros call context w Hrq Hrs.
  destruct (server_changes call context w) as [->|(u & Hu & Heff)]; simpl.
  - auto.
  - destruct (Effect_others _ _ _ _ Heff Hrq Hrs) as [H1 H2].
    split.
    + intros r Hr Hother. apply H1; [exact Hr|]. apply Hother. exact Hu.
    + intros x Hx Hother. apply H2; [exact Hx|]. apply Hother. exact Hu.
Qed.

Lemma pk_unique_responses_world4 : pk_unique HomeworkResponses (db world4).
Proof.
  unfold pk_unique. simpl.
  repeat (constructor; [simpl; intuition discriminate|]). constructor.
Qed.

(** Bob asks a question: alice's two requests and two responses stay. *)
Lemma calls_touch_only_own_rows_witness :
  incl (requests (db world4))
       (requests (db (snd (server (CreateHomeworkRequestCall (ask "Why?"))
                                  (signed_in "bob") world4))))
  /\ incl (responses (db world4))
          (responses (db (snd (server (CreateHomeworkRequestCall (ask "Why?"))
                                      (signed_in "bob") world4)))).
Proof.
  destruct (calls_touch_only_own_rows
              (CreateHomeworkRequestCall (ask "Why?")) (signed_in "bob") world4
              pk_unique_world4 pk_unique_responses_world4) as [Hrq Hrs].
  split.
  - intros r Hr. apply Hrq; [exact Hr|].
    intros u Hu. injection Hu as <-.
    destruct Hr as [<-|[<-|[]]]; discriminate.
  - intros x Hx. apply Hrs; [exact Hx|].
    intros u Hu. injection Hu as <-.
    intros (p & Hp & _ & Hpu).
    destruct Hp as [<-|[<-|[]]]; discriminate.
Defined.

(** ** Updating twice *)

(** The outcome of [updateHomeworkRequest] on a request [r] of the
    signed-in caller, written out. *)
Lemma updateHomeworkRequest_run input context u w r :
  UpdateHomeworkRequest.schema input = true ->
  context_user context = Some u ->
  pk_unique HomeworkRequests (db w) ->
  In r (requests (db w)) ->
  HomeworkRequest.id r = UpdateHomeworkRequest.id input ->
  HomeworkRequest.userId r = App.id u ->
  let r' := UpdateHomeworkRequest.set input (wall w (reads w)) r in
  updateHomeworkRequest input context w
  = (Ok (mkSuccess true (mkRequestData (Some r'))),
     mkWorld (mkDatabase
                (map (fun x => if HomeworkRequest.id x =? HomeworkRequest.id r
                               then r' else x)
                     (requests (db w)))
                (responses (db w)) (jobs (db w)))
             (wall w) (S (reads w))).
Proof.
  intros Hvalid Hu Hpk Hin Hid Huid r'.
  assert (Hown : owns (db w) (App.id u) (UpdateHomeworkRequest.id input)).
  { exists r. auto. }
  unfold updateHomeworkRequest. rewrite defineAction_valid by exact Hvalid.
  unfold UpdateHomeworkRequest.handler.
  step_ok (requireUser_signed_in context u w Hu).
  destruct (getOwnedRequest_owned _ _ _ Hown) as (r0 & Hget & _).
  step_ok Hget.
  unfold bind, newDate, update, ret. simpl.
  rewrite <- Hid.
  rewrite (filter_key_unique HomeworkRequest.id (requests (db w)) r Hpk Hin).
  rewrite (update_by_key HomeworkRequest.id
             (UpdateHomeworkRequest.set input (wall w (reads w)))
             (requests (db w)) r Hpk Hin).
  reflexivity.
Qed.

Lemma replace_by_key_keys {R : Type} (key : R -> Z) (l : list R) (r r' : R) :
  key r' = key r ->
  map key (map (fun x => if key x =? key r then r' else x) l) = map key l.
Proof.
  intros Hk. rewrite map_map. apply map_ext. intros x.
  destruct (Z.eqb_spec (key x) (key r)); congruence.
Qed.

Lemma set_twice input t1 t2 r :
  UpdateHomeworkRequest.set input t2 (UpdateHomeworkRequest.set input t1 r)
  = HomeworkRequest.set_updatedAt t2 (UpdateHomeworkRequest.set input t1 r).
Proof.
  destruct input as [id [?|] [?|] [?|] [?|] [?|] [?|] [?|]]; destruct r;
    cbv; reflexivity.
Qed.

(** X10. Repeating an [updateHomeworkRequest] changes nothing but
    [updatedAt]: on a request of the signed-in caller, with unique keys,
    the call succeeds twice in a row with the same input, and the row the
    second call returns is the row the first one returned with a newer
    [updatedAt]. *)
Theorem updateHomeworkRequest_repeated :
  forall (input : UpdateHomeworkRequest.input) (context : ActionAPIContext)
         (u : App.User) (w : World) (r : HomeworkRequest.row),
    UpdateHomeworkRequest.schema input = true ->
    context_user context = Some u ->
    pk_unique HomeworkRequests (db w) ->
    In r (requests (db w)) ->
    HomeworkRequest.id r = UpdateHomeworkRequest.id input ->
    HomeworkRequest.userId r = App.id u ->
    exists r1 w1 r2 w2,
      updateHomeworkRequest input context w
      = (Ok (mkSuccess true (mkRequestData (Some r1))), w1)
      /\ updateHomeworkRequest input context w1
         = (Ok (mkSuccess true (mkRequestData (Some r2))), w2)
      /\ r2 = HomeworkRequest.set_updatedAt (HomeworkRequest.updatedAt r2) r1
      /\ read_during w1 w2 (HomeworkRequest.updatedAt r2).
Proof.
  intros input context u w r Hvalid Hu Hpk Hin Hid Huid.
  pose proof (updateHomeworkRequest_run input context u w r
                Hvalid Hu Hpk Hin Hid Huid) as Hrun1.
  cbv zeta in Hrun1.
  destruct (set_keeps input (wall w (reads w)) r) as (K1 & K2 & _).
  remember (UpdateHomeworkRequest.set input (wall w (reads w)) r) as r1 eqn:Er1.
  remember (mkWorld
              (mkDatabase
                 (map (fun x => if HomeworkRequest.id x =? HomeworkRequest.id r
                                then r1 else x)
                      (requests (db w)))
                 (responses (db w)) (jobs (db w)))
              (wall w) (S (reads w))) as w1 eqn:Ew1.
  assert (Hpk1 : pk_unique HomeworkRequests (db w1)).
  { rewrite Ew1. unfold pk_unique. simpl.
    rewrite (replace_by_key_keys HomeworkRequest.id _ r r1 K1). exact Hpk. }
  assert (Hin1 : In r1 (requests (db w1))).
  { rewrite Ew1. simpl. apply in_map_iff. exists r. split; [|exact Hin].
    rewrite Z.eqb_refl. reflexivity. }
  pose proof (updateHomeworkRequest_run input context u w1 r1
                Hvalid Hu Hpk1 Hin1 (eq_trans K1 Hid) (eq_trans K2 Huid)) as Hrun2.
  cbv zeta in Hrun2.
  exists r1, w1.
  exists (UpdateHomeworkRequest.set input (wall w1 (reads w1)) r1).
  eexists.
  split; [exact Hrun1|]. split; [exact Hrun2|].
  destruct (set_keeps input (wall w1 (reads w1)) r1) as (_ & _ & _ & K4).
  split.
  - rewrite K4, Er1. apply set_twice.
  - exists (reads w1). cbn [reads]. split; [lia|]. exact K4.
Qed.

Lemma updateHomeworkRequest_repeated_witness :
  exists r1 w1 r2 w2,
    updateHomeworkRequest (retitle 2 "Sums") (signed_in "alice") world4
    = (Ok (mkSuccess true (mkRequestData (Some r1))), w1)
    /\ updateHomeworkRequest (retitle 2 "Sums") (signed_in "alice") w1
       = (Ok (mkSuccess true (mkRequestData (Some r2))), w2)
    /\ HomeworkRequest.title r2 = HomeworkRequest.title r1.
Proof.
  destruct (updateHomeworkRequest_repeated
              (retitle 2 "Sums") (signed_in "alice") (App.mkUser "alice") world4
              (HomeworkRequest.mk 2 "alice" (Some "Math") None None None
                 "And 3+3?" None open 1001 1001))
    as (r1 & w1 & r2 & w2 & H1 & H2 & H3 & _).
  - reflexivity.
  - reflexivity.
  - exact pk_unique_world4.
  - right. left. reflexivity.
  - reflexivity.
  - reflexivity.
  - exists r1, w1, r2, w2. split; [exact H1|]. split; [exact H2|].
    rewrite H3. reflexivity.
Defined.

(** ** Partial update of a response *)

Lemma response_set_patches input x :
  let x' := UpdateHomeworkResponse.set input x in
  patched_required (UpdateHomeworkResponse.isAccepted input)
    (HomeworkResponse.isAccepted x) (HomeworkResponse.isAccepted x')
  /\ patched (UpdateHomeworkResponse.rating input)
       (HomeworkResponse.rating x) (HomeworkResponse.rating x')
  /\ patched (UpdateHomeworkResponse.feedback input)
       (HomeworkResponse.feedback x) (HomeworkResponse.feedback x').
Proof.
  destruct input as [id rid [?|] [?|] [?|]]; simpl; repeat split.
Qed.

(** X11. [updateHomeworkResponse], on the response [x] it designates under
    a request of the signed-in caller and with unique response keys,
    returns the updated row [x'], which replaces [x] in the responses table
    while every other response and every job stays; in [x'] the acceptance,
    the rating and the feedback have the supplied value where one is
    supplied and the value they had in [x] where it is omitted, and every
    other column is that of [x]. *)
Theorem updateHomeworkResponse_partial_update :
  forall (input : UpdateHomeworkResponse.input) (context : ActionAPIContext)
         (u : App.User) (w : World) (x : HomeworkResponse.row),
    context_user context = Some u ->
    UpdateHomeworkResponse.schema input = true ->
    owns (db w) (App.id u) (UpdateHomeworkResponse.requestId input) ->
    pk_unique HomeworkResponses (db w) ->
    In x (responses (db w)) ->
    designated input x ->
    exists x' w',
      updateHomeworkResponse input context w
      = (Ok (mkSuccess true (mkResponseData (Some x'))), w')
      /\ responses (db w')
         = map (fun y => if HomeworkResponse.id y =? HomeworkResponse.id x
                         then x' else y)
               (responses (db w))
      /\ jobs (db w') = jobs (db w)
      /\ same_response x x'
      /\ patched_required (UpdateHomeworkResponse.isAccepted input)
           (HomeworkResponse.isAccepted x) (HomeworkResponse.isAccepted x')
      /\ patched (UpdateHomeworkResponse.rating input)
           (HomeworkResponse.rating x) (HomeworkResponse.rating x')
      /\ patched (UpdateHomeworkResponse.feedback input)
           (HomeworkResponse.feedback x) (HomeworkResponse.feedback x').
Proof.
  intros input context u w x Hu Hvalid Hown Hpk Hin [Hid Hrid].
  unfold updateHomeworkResponse. rewrite defineAction_valid by exact Hvalid.
  unfold UpdateHomeworkResponse.handler.
  step_ok (requireUser_signed_in context u w Hu).
  destruct (getOwnedRequest_owned _ _ _ Hown) as (p & Hget & _).
  step_ok Hget.
  destruct (select_designated input w) as (y & Hy).
  { exists x. split; [exact Hin|]. split; assumption. }
  unfold bind, select. simpl. rewrite Hy.
  unfold update, newDate, ret. simpl.
  rewrite <- Hid.
  rewrite (filter_key_unique HomeworkResponse.id (responses (db w)) x Hpk Hin).
  rewrite (update_by_key HomeworkResponse.id (UpdateHomeworkResponse.set input)
             (responses (db w)) x Hpk Hin).
  exists (UpdateHomeworkResponse.set input x).
  destruct (UpdateHomeworkResponse.isAccepted input) as [b|] eqn:Hacc; simpl;
    eexists; (split; [reflexivity|]); simpl;
    (split; [reflexivity|]); (split; [reflexivity|]);
    (split; [apply response_set_keeps|]);
    pose proof (response_set_patches input x) as Hp; cbv zeta in Hp;
    rewrite Hacc in Hp; exact Hp.
Qed.

(** Alice rates her response 1 without touching its acceptance. *)
Lemma updateHomeworkResponse_partial_update_witness :
  exists x' w',
    updateHomeworkResponse
      (UpdateHomeworkResponse.mkInput 1 1 None (Some (Finite 5)) None)
      (signed_in "alice") world4
    = (Ok (mkSuccess true (mkResponseData (Some x'))), w')
    /\ HomeworkResponse.rating x' = Some (Finite 5)
    /\ HomeworkResponse.isAccepted x' = true
    /\ HomeworkResponse.answerText x' = "4".
Proof.
  destruct (updateHomeworkResponse_partial_update
              (UpdateHomeworkResponse.mkInput 1 1 None (Some (Finite 5)) None)
              (signed_in "alice") (App.mkUser "alice") world4
              (HomeworkResponse.mk 1 1 (Some "alice") source_ai "4" None true
                 None None 1002))
    as (x' & w' & Hrun & _ & _ & Hsame & Hacc & Hrating & _).
  - reflexivity.
  - reflexivity.
  - apply alice_owns_world4. left. reflexivity.
  - exact pk_unique_responses_world4.
  - left. reflexivity.
  - split; reflexivity.
  - exists x', w'. split; [exact Hrun|]. split; [exact Hrating|].
    split; [exact Hacc|]. apply Hsame.
Defined.

(** ** Writing, then listing *)

(** The condition of [listHomeworkRequests] for caller [uid]. *)
Definition listed_request (uid : string) (input : ListHomeworkRequests.input)
    (r : HomeworkRequest.row) : bool :=
  String.eqb (HomeworkRequest.userId r) uid
  && match requested_status input with
     | Some s => RequestStatus_eqb (HomeworkRequest.status r) s
     | None => true
     end.

Lemma listHomeworkRequests_run input context u w :
  context_user context = Some u ->
  let items := filter (listed_request (App.id u) input) (requests (db w)) in
  listHomeworkRequests input context w
  = (Ok (mkSuccess true (mkListData items (List.length items))), w).
Proof.
  intros Hu items.
  unfold listHomeworkRequests. rewrite defineAction_valid by reflexivity.
  unfold ListHomeworkRequests.handler.
  step_ok (requireUser_signed_in context u w Hu).
  unfold bind, select, ret. simpl.
  match goal with
  | |- (Ok (mkSuccess true (mkListData ?l _)), _) = _ => assert (E : l = items)
  end.
  { apply filter_ext. intros r. unfold listed_request.
    destruct input as [[[s|]]|]; simpl; rewrite ?andb_true_r; reflexivity. }
  rewrite E. reflexivity.
Qed.

Lemma filter_snoc {A : Type} (p : A -> bool) (l : list A) (x : A) :
  filter p (l ++ [x]) = if p x then (filter p l ++ [x])%list else filter p l.
Proof.
  rewrite filter_app. simpl. destruct (p x); [reflexivity|apply app_nil_r].
Qed.

Lemma length_snoc {A : Type} (l : list A) (x : A) :
  List.length (l ++ [x]) = S (List.length l).
Proof. rewrite length_app. simpl. apply Nat.add_1_r. Qed.

(** X12. A request just created by a signed-in user is at the end of that
    user's next listing when the listing asks for no status or for [open],
    and absent from it when it asks for another status; the listing of any
    other user is what it was. *)
Theorem created_request_is_listed :
  forall (input : CreateHomeworkRequest.input) (asked : ListHomeworkRequests.input)
         (context : ActionAPIContext) (u : App.User) (w : World),
    context_user context = Some u ->
    CreateHomeworkRequest.questionText input <> "" ->
    exists r w1 before,
      createHomeworkRequest input context w
      = (Ok (mkSuccess true (mkRequestData (Some r))), w1)
      /\ fst (listHomeworkRequests asked context w)
         = Ok (mkSuccess true (mkListData before (List.length before)))
      /\ (requested_status asked = None \/ requested_status asked = Some open ->
          fst (listHomeworkRequests asked context w1)
          = Ok (mkSuccess true (mkListData (before ++ [r])%list
                                           (S (List.length before)))))
      /\ (requested_status asked = Some answered
          \/ requested_status asked = Some closed ->
          fst (listHomeworkRequests asked context w1)
          = fst (listHomeworkRequests asked context w))
      /\ (forall context2 u2,
            context_user context2 = Some u2 -> App.id u2 <> App.id u ->
            fst (listHomeworkRequests asked context2 w1)
            = fst (listHomeworkRequests asked context2 w)).
Proof.
  intros input asked context u w Hu Hq.
  pose (r := HomeworkRequest.mk
               (next_id (map HomeworkRequest.id (requests (db w)))) (App.id u)
               (CreateHomeworkRequest.subject input)
               (CreateHomeworkRequest.gradeLevel input)
               (CreateHomeworkRequest.topic input)
               (CreateHomeworkRequest.title input)
               (CreateHomeworkRequest.questionText input)
               (option_map json_record (CreateHomeworkRequest.attachments input))
               open (wall w (reads w)) (wall w (reads w))).
  pose (w1 := mkWorld (mkDatabase (requests (db w) ++ [r]) (responses (db w))
                                  (jobs (db w)))
                      (wall w) (S (reads w))).
  exists r, w1, (filter (listed_request (App.id u) asked) (requests (db w))).
  split.
  { unfold createHomeworkRequest.
    rewrite defineAction_valid by (apply z_string_min_1_nonempty; exact Hq).
    unfold CreateHomeworkRequest.handler.
    step_ok (requireUser_signed_in context u w Hu). reflexivity. }
  rewrite (listHomeworkRequests_run asked context u w Hu).
  split; [reflexivity|].
  assert (Hlist : forall context2 u2,
            context_user context2 = Some u2 ->
            fst (listHomeworkRequests asked context2 w1)
            = let l := filter (listed_request (App.id u2) asked) (requests (db w)) in
              if listed_request (App.id u2) asked r
              then Ok (mkSuccess true (mkListData (l ++ [r])%list (S (List.length l))))
              else Ok (mkSuccess true (mkListData l (List.length l)))).
  { intros context2 u2 Hu2.
    rewrite (listHomeworkRequests_run asked context2 u2 w1 Hu2).
    cbv zeta. cbn [fst db requests w1].
    rewrite filter_snoc.
    destruct (listed_request (App.id u2) asked r);
      [rewrite length_snoc|]; reflexivity. }
  split; [|split].
  - intros Hasked. rewrite (Hlist context u Hu). cbv zeta.
    unfold listed_request at 1. cbn [HomeworkRequest.userId HomeworkRequest.status r].
    rewrite String.eqb_refl.
    destruct Hasked as [-> | ->]; reflexivity.
  - intros Hasked. rewrite (Hlist context u Hu). cbv zeta.
    unfold listed_request at 1. cbn [HomeworkRequest.userId HomeworkRequest.status r].
    rewrite String.eqb_refl.
    destruct Hasked as [-> | ->]; reflexivity.
  - intros context2 u2 Hu2 Hne.
    rewrite (Hlist context2 u2 Hu2). cbv zeta.
    rewrite (listHomeworkRequests_run asked context2 u2 w Hu2).
    unfold listed_request at 1. cbn [HomeworkRequest.userId r].
    assert (E : String.eqb (App.id u) (App.id u2) = false).
    { apply String.eqb_neq. congruence. }
    rewrite E. reflexivity.
Qed.

Lemma created_request_is_listed_witness :
  exists r w1 before,
    createHomeworkRequest (ask "Why?") (signed_in "alice") world4
    = (Ok (mkSuccess true (mkRequestData (Some r))), w1)
    /\ fst (listHomeworkRequests None (signed_in "alice") w1)
       = Ok (mkSuccess true (mkListData (before ++ [r])%list
                                        (S (List.length before))))
    /\ fst (listHomeworkRequests None (signed_in "bob") w1)
       = fst (listHomeworkRequests None (signed_in "bob") world4).
Proof.
  destruct (created_request_is_listed
              (ask "Why?") None (signed_in "alice") (App.mkUser "alice") world4)
    as (r & w1 & before & Hcreate & _ & Hlisted & _ & Hother).
  - reflexivity.
  - discriminate.
  - exists r, w1, before. split; [exact Hcreate|]. split.
    + apply Hlisted. left. reflexivity.
    + apply (Hother (signed_in "bob") (App.mkUser "bob")).
      * reflexivity.
      * discriminate.
Defined.

Lemma listHomeworkResponses_run rid context u w :
  context_user context = Some u ->
  owns (db w) (App.id u) rid ->
  let items := filter (fun r => HomeworkResponse.requestId r =? rid) (responses (db w)) in
  listHomeworkResponses (ListHomeworkResponses.mkInput rid) context w
  = (Ok (mkSuccess true (mkListData items (List.length items))), w).
Proof.
  intros Hu Hown items.
  unfold listHomeworkResponses. rewrite defineAction_valid by reflexivity.
  unfold ListHomeworkResponses.handler.
  step_ok (requireUser_signed_in context u w Hu).
  destruct (getOwnedRequest_owned _ _ _ Hown) as (p & Hget & _).
  step_ok Hget. reflexivity.
Qed.

Lemma owns_touch d uid rid k f rs js :
  keeps_request f -> owns d uid rid ->
  owns (mkDatabase (touch HomeworkRequest.id k f (requests d)) rs js) uid rid.
Proof.
  intros Hf (p & Hin & Hid & Hu).
  destruct (touch_parent k f _ p Hf Hin) as (p' & Hin' & Hid' & Hu' & _).
  exists p'. simpl. split; [exact Hin'|]. split; congruence.
Qed.

(** The outcome of [addHomeworkResponse] for a signed-in owner: the new
    response is appended, and the caller still owns what they owned. *)
Lemma addHomeworkResponse_run input context u w :
  context_user context = Some u ->
  AddHomeworkResponse.schema input = true ->
  owns (db w) (App.id u) (AddHomeworkResponse.requestId input) ->
  exists x rq n,
    addHomeworkResponse input context w
    = (Ok (mkSuccess true (mkResponseData (Some x))),
       mkWorld (mkDatabase rq (responses (db w) ++ [x]) (jobs (db w))) (wall w) n)
    /\ HomeworkResponse.requestId x = AddHomeworkResponse.requestId input
    /\ forall rid, owns (db w) (App.id u) rid ->
                   owns (mkDatabase rq (responses (db w) ++ [x]) (jobs (db w)))
                        (App.id u) rid.
Proof.
  intros Hu Hvalid Hown.
  unfold addHomeworkResponse. rewrite defineAction_valid by exact Hvalid.
  unfold AddHomeworkResponse.handler.
  step_ok (requireUser_signed_in context u w Hu).
  destruct (getOwnedRequest_owned _ _ _ Hown) as (p & Hget & _).
  step_ok Hget.
  unfold bind, newDate, insert, update, ret.
  destruct (AddHomeworkResponse.truthy (AddHomeworkResponse.isAccepted input)); simpl.
  - eexists. eexists. eexists. split; [reflexivity|]. split; [reflexivity|].
    intros rid Hrid.
    apply (owns_touch (db w) (App.id u) rid (AddHomeworkResponse.requestId input)
             (fun r => HomeworkRequest.set_updatedAt (wall w (S (reads w)))
                         (HomeworkRequest.set_status answered r))).
    + apply set_status_keeps.
    + exact Hrid.
  - eexists. eexists. eexists. split; [reflexivity|]. split; [reflexivity|].
    intros rid (q & Hq & Hrest). exists q. split; [exact Hq|exact Hrest].
Qed.

(** X13. A response just added by the owner of a request is at the end of
    the next listing of that request's responses, and the listings of the
    caller's other requests are what they were. *)
Theorem added_response_is_listed :
  forall (input : AddHomeworkResponse.input) (context : ActionAPIContext)
         (u : App.User) (w : World),
    context_user context = Some u ->
    AddHomeworkResponse.schema input = true ->
    owns (db w) (App.id u) (AddHomeworkResponse.requestId input) ->
    exists x w1 before,
      addHomeworkResponse input context w
      = (Ok (mkSuccess true (mkResponseData (Some x))), w1)
      /\ fst (listHomeworkResponses
                (ListHomeworkResponses.mkInput (AddHomeworkResponse.requestId input))
                context w)
         = Ok (mkSuccess true (mkListData before (List.length before)))
      /\ fst (listHomeworkResponses
                (ListHomeworkResponses.mkInput (AddHomeworkResponse.requestId input))
                context w1)
         = Ok (mkSuccess true (mkListData (before ++ [x])%list
                                          (S (List.length before))))
      /\ (forall rid,
            rid <> AddHomeworkResponse.requestId input ->
            owns (db w) (App.id u) rid ->
            fst (listHomeworkResponses (ListHomeworkResponses.mkInput rid) context w1)
            = fst (listHomeworkResponses (ListHomeworkResponses.mkInput rid) context w)).
Proof.
  intros input context u w Hu Hvalid Hown.
  destruct (addHomeworkResponse_run input context u w Hu Hvalid Hown)
    as (x & rq & n & Hrun & Hx & Hkeep).
  remember (mkWorld (mkDatabase rq (responses (db w) ++ [x]) (jobs (db w)))
                    (wall w) n) as w1 eqn:Ew1.
  assert (Hkeep1 : forall rid, owns (db w) (App.id u) rid -> owns (db w1) (App.id u) rid).
  { rewrite Ew1. exact Hkeep. }
  assert (Hresp : responses (db w1) = (responses (db w) ++ [x])%list).
  { rewrite Ew1. reflexivity. }
  exists x, w1.
  exists (filter (fun r => HomeworkResponse.requestId r
                           =? AddHomeworkResponse.requestId input)
                 (responses (db w))).
  split; [exact Hrun|].
  rewrite (listHomeworkResponses_run _ context u w Hu Hown).
  split; [reflexivity|]. split.
  - rewrite (listHomeworkResponses_run _ context u w1 Hu (Hkeep1 _ Hown)).
    cbv zeta. cbn [fst]. rewrite Hresp.
    rewrite filter_snoc, Hx, Z.eqb_refl, length_snoc. reflexivity.
  - intros rid Hne Hrid.
    rewrite (listHomeworkResponses_run _ context u w1 Hu (Hkeep1 _ Hrid)).
    rewrite (listHomeworkResponses_run _ context u w Hu Hrid).
    cbv zeta. cbn [fst]. rewrite Hresp.
    rewrite filter_snoc, Hx.
    assert (E : (AddHomeworkResponse.requestId input =? rid) = false).
    { apply Z.eqb_neq. congruence. }
    rewrite E. reflexivity.
Qed.

Lemma added_response_is_listed_witness :
  exists x w1 before,
    addHomeworkResponse (answer 1 None) (signed_in "alice") world4
    = (Ok (mkSuccess true (mkResponseData (Some x))), w1)
    /\ fst (listHomeworkResponses (ListHomeworkResponses.mkInput 1)
              (signed_in "alice") w1)
       = Ok (mkSuccess true (mkListData (before ++ [x])%list
                                        (S (List.length before)))).
Proof.
  destruct (added_response_is_listed
              (answer 1 None) (signed_in "alice") (App.mkUser "alice") world4)
    as (x & w1 & before & Hrun & _ & Hlisted & _).
  - reflexivity.
  - reflexivity.
  - apply alice_owns_world4. left. reflexivity.
  - exists x, w1, before. split; [exact Hrun|exact Hlisted].
Defined.

(** The condition of [listHomeworkJobs] for caller [uid]. *)
Definition listed_job (uid : string) (input : ListHomeworkJobs.input)
    (j : HomeworkJob.row) : bool :=
  ListHomeworkJobs.eq_nullable String.eqb (HomeworkJob.userId j) uid
  && match requested_request input with
     | Some rid => ListHomeworkJobs.eq_nullable Z.eqb (HomeworkJob.requestId j) rid
     | None => true
     end.

Lemma listHomeworkJobs_run input context u w :
  context_user context = Some u ->
  let items := filter (listed_job (App.id u) input) (jobs (db w)) in
  listHomeworkJobs input context w
  = (Ok (mkSuccess true (mkListData items (List.length items))), w).
Proof.
  intros Hu items.
  unfold listHomeworkJobs. rewrite defineAction_valid by reflexivity.
  unfold ListHomeworkJobs.handler.
  step_ok (requireUser_signed_in context u w Hu).
  unfold bind, select, ret. simpl.
  match goal with
  | |- (Ok (mkSuccess true (mkListData ?l _)), _) = _ => assert (E : l = items)
  end.
  { apply filter_ext. intros j. unfold listed_job.
    destruct input as [[[rid|]]|]; simpl; rewrite ?andb_true_r; reflexivity. }
  rewrite E. reflexivity.
Qed.

Lemma createHomeworkJob_run input context u w :
  context_user context = Some u ->
  (forall rid, CreateHomeworkJob.requestId input = Some rid ->
               owns (db w) (App.id u) rid) ->
  exists j n,
    createHomeworkJob input context w
    = (Ok (mkSuccess true (mkJobData (Some j))),
       mkWorld (mkDatabase (requests (db w)) (responses (db w)) (jobs (db w) ++ [j]))
               (wall w) n)
    /\ HomeworkJob.userId j = Some (App.id u)
    /\ HomeworkJob.requestId j = CreateHomeworkJob.requestId input.
Proof.
  intros Hu Hlink.
  unfold createHomeworkJob. rewrite defineAction_valid by reflexivity.
  unfold CreateHomeworkJob.handler.
  step_ok (requireUser_signed_in context u w Hu).
  assert (Hcheck :
            match CreateHomeworkJob.requestId input with
            | Some requestId =>
                bind (getOwnedRequest requestId (App.id u)) (fun _ => ret tt)
            | None => ret tt
            end w = (Ok tt, w)).
  { destruct (CreateHomeworkJob.requestId input) as [rid|] eqn:Hrid; [|reflexivity].
    destruct (getOwnedRequest_owned _ _ _ (Hlink rid eq_refl)) as (r & Hget & _).
    step_ok Hget. reflexivity. }
  step_ok Hcheck.
  unfold bind, newDate, insert, ret. simpl.
  eexists. eexists. split; [reflexivity|]. split; reflexivity.
Qed.

(** X14. A job just recorded by a signed-in user (for no request, or for
    one of their own) is at the end of that user's next listing of jobs
    when the listing asks for no request or for the request of the job,
    and absent from it when it asks for another request. *)
Theorem created_job_is_listed :
  forall (input : CreateHomeworkJob.input) (asked : ListHomeworkJobs.input)
         (context : ActionAPIContext) (u : App.User) (w : World),
    context_user context = Some u ->
    (forall rid, CreateHomeworkJob.requestId input = Some rid ->
                 owns (db w) (App.id u) rid) ->
    exists j w1 before,
      createHomeworkJob input context w
      = (Ok (mkSuccess true (mkJobData (Some j))), w1)
      /\ fst (listHomeworkJobs asked context w)
         = Ok (mkSuccess true (mkListData before (List.length before)))
      /\ (requested_request asked = None
          \/ requested_request asked = CreateHomeworkJob.requestId input ->
          fst (listHomeworkJobs asked context w1)
          = Ok (mkSuccess true (mkListData (before ++ [j])%list
                                           (S (List.length before)))))
      /\ (forall rid,
            requested_request asked = Some rid ->
            CreateHomeworkJob.requestId input <> Some rid ->
            fst (listHomeworkJobs asked context w1)
            = fst (listHomeworkJobs asked context w)).
Proof.
  intros input asked context u w Hu Hlink.
  destruct (createHomeworkJob_run input context u w Hu Hlink)
    as (j & n & Hrun & Hju & Hjr).
  remember (mkWorld (mkDatabase (requests (db w)) (responses (db w))
                                (jobs (db w) ++ [j]))
                    (wall w) n) as w1 eqn:Ew1.
  assert (Hjobs : jobs (db w1) = (jobs (db w) ++ [j])%list).
  { rewrite Ew1. reflexivity. }
  exists j, w1, (filter (listed_job (App.id u) asked) (jobs (db w))).
  split; [exact Hrun|].
  rewrite (listHomeworkJobs_run asked context u w Hu).
  rewrite (listHomeworkJobs_run asked context u w1 Hu).
  cbv zeta. cbn [fst]. rewrite Hjobs, filter_snoc.
  split; [reflexivity|].
  assert (Hp : listed_job (App.id u) asked j
               = match requested_request asked with
                 | Some rid =>
                     ListHomeworkJobs.eq_nullable Z.eqb
                       (CreateHomeworkJob.requestId input) rid
                 | None => true
                 end).
  { unfold listed_job. rewrite Hju, Hjr. cbn [ListHomeworkJobs.eq_nullable].
    rewrite String.eqb_refl. reflexivity. }
  rewrite Hp. clear Hp.
  split.
  - intros [Hnone|Hsame].
    + rewrite Hnone. cbv iota. rewrite length_snoc. reflexivity.
    + rewrite Hsame.
      destruct (CreateHomeworkJob.requestId input) as [rid|];
        cbn [ListHomeworkJobs.eq_nullable]; rewrite ?Z.eqb_refl; cbv iota;
        rewrite length_snoc; reflexivity.
  - intros rid Hasked Hne. rewrite Hasked.
    destruct (CreateHomeworkJob.requestId input) as [rid'|];
      cbn [ListHomeworkJobs.eq_nullable]; [|reflexivity].
    assert (E : (rid' =? rid) = false).
    { apply Z.eqb_neq. congruence. }
    rewrite E. reflexivity.
Qed.

Lemma created_job_is_listed_witness :
  exists j w1 before,
    createHomeworkJob (CreateHomeworkJob.mkInput (Some 2) None None None None)
      (signed_in "alice") world4
    = (Ok (mkSuccess true (mkJobData (Some j))), w1)
    /\ fst (listHomeworkJobs (Some (ListHomeworkJobs.mkFields (Some 2)))
              (signed_in "alice") w1)
       = Ok (mkSuccess true (mkListData (before ++ [j])%list
                                        (S (List.length before)))).
Proof.
  destruct (created_job_is_listed
              (CreateHomeworkJob.mkInput (Some 2) None None None None)
              (Some (ListHomeworkJobs.mkFields (Some 2)))
              (signed_in "alice") (App.mkUser "alice") world4)
    as (j & w1 & before & Hrun & _ & Hlisted & _).
  - reflexivity.
  - intros rid Hrid. injection Hrid as <-.
    apply alice_owns_world4. right. reflexivity.
  - exists j, w1, before. split; [exact Hrun|].
    apply Hlisted. right. reflexivity.
Defined.

(** ** The status of a request *)

Definition id_status (r : HomeworkRequest.row) : Z * RequestStatus :=
  (HomeworkRequest.id r, HomeworkRequest.status r).

Lemma Effect_status (quiet : Prop) u d d' :
  Effect quiet u d d' -> quiet ->
  exists fresh,
    map id_status (requests d') = (map id_status (requests d) ++ fresh)%list
    /\ Forall (fun p => snd p = open) fresh.
Proof.
  intros Heff Hq.
  assert (Htouch : forall k f,
            keeps_request f ->
            (quiet -> forall r, HomeworkRequest.status (f r) = HomeworkRequest.status r) ->
            map id_status (touch HomeworkRequest.id k f (requests d))
            = map id_status (requests d)).
  { intros k f Hf Hs. unfold touch. rewrite map_map. apply map_ext.
    intros r. destruct (HomeworkRequest.id r =? k); [|reflexivity].
    unfold id_status. rewrite (Hs Hq r). destruct (Hf r) as (-> & _). reflexivity. }
  destruct Heff as [ | r Hu Hid Hopen | p f rq Hin Hu Hf Hs ->
                   | p f rq x Hin Hu Hf Hs -> Hx Hxu Hxid
                   | p f rq x g Hin Hu Hf Hs -> Hxin Hx Hg | j Hju Hjid Hj ]; simpl.
  - exists []. rewrite app_nil_r. split; [reflexivity|constructor].
  - exists [id_status r]. rewrite map_app. split; [reflexivity|].
    constructor; [exact Hopen|constructor].
  - exists []. rewrite app_nil_r, Htouch by assumption. split; [reflexivity|constructor].
  - exists []. rewrite app_nil_r, Htouch by assumption. split; [reflexivity|constructor].
  - exists []. rewrite app_nil_r, Htouch by assumption. split; [reflexivity|constructor].
  - exists []. rewrite app_nil_r. split; [reflexivity|constructor].
Qed.

(** X15. The status of a request changes only when a call asks for it:
    unless the call is an [updateHomeworkRequest] that supplies [status], an
    [addHomeworkResponse] with [isAccepted: true] or an
    [updateHomeworkResponse] that supplies [isAccepted], the requests after
    the call have, in order, the identifiers and statuses they had before,
    followed at most by new requests, which are [open]. *)
Theorem status_changes_only_when_asked :
  forall (call : Call) (context : ActionAPIContext) (w : World),
    writes_status call = false ->
    exists fresh,
      map id_status (requests (db (snd (server call context w))))
      = (map id_status (requests (db w)) ++ fresh)%list
      /\ Forall (fun p => snd p = open) fresh.
Proof.
  intros call context w Hquiet.
  destruct (server_changes call context w) as [->|(u & _ & Heff)].
  - exists []. rewrite app_nil_r. split; [reflexivity|constructor].
  - exact (Effect_status _ _ _ _ Heff Hquiet).
Qed.

(** Rating a response of an answered request leaves the request answered. *)
Lemma status_changes_only_when_asked_witness :
  exists fresh,
    map id_status
        (requests (db (snd (server
                              (UpdateHomeworkResponseCall
                                 (UpdateHomeworkResponse.mkInput 1 1 None
                                    (Some (Finite 5)) None))
                              (signed_in "alice") world4))))
    = ([(1, answered); (2, open)] ++ fresh)%list.
Proof.
  destruct (status_changes_only_when_asked
              (UpdateHomeworkResponseCall
                 (UpdateHomeworkResponse.mkInput 1 1 None (Some (Finite 5)) None))
              (signed_in "alice") world4 eq_refl) as (fresh & Heq & _).
  exists fresh. exact Heq.
Defined.

(** ** Concrete instances of the listings and the invariants *)

Lemma listHomeworkRequests_lists_own_witness :
  exists items,
    listHomeworkRequests (Some (ListHomeworkRequests.mkFields (Some open)))
      (signed_in "alice") world4
    = (Ok (mkSuccess true (mkListData items (List.length items))), world4)
    /\ forall r, In r items -> HomeworkRequest.status r = open.
Proof.
  destruct (listHomeworkRequests_lists_own
              (Some (ListHomeworkRequests.mkFields (Some open)))
              (signed_in "alice") (App.mkUser "alice") world4 eq_refl)
    as (items & Hrun & Hitems).
  exists items. split; [exact Hrun|].
  intros r Hr. apply Hitems in Hr. destruct Hr as (_ & _ & Hs).
  apply Hs. reflexivity.
Defined.

Lemma listHomeworkResponses_lists_request_witness :
  exists items,
    listHomeworkResponses (ListHomeworkResponses.mkInput 1) (signed_in "alice") world4
    = (Ok (mkSuccess true (mkListData items (List.length items))), world4)
    /\ forall r, In r (responses (db world4)) -> In r items.
Proof.
  destruct (listHomeworkResponses_lists_request
              (ListHomeworkResponses.mkInput 1)
              (signed_in "alice") (App.mkUser "alice") world4 eq_refl)
    as (items & Hrun & Hitems).
  - apply alice_owns_world4. left. reflexivity.
  - exists items. split; [exact Hrun|].
    intros r Hr. apply Hitems. split; [exact Hr|].
    destruct Hr as [<-|[<-|[]]]; reflexivity.
Defined.

(** Bob may list jobs filtered by alice's request 1: the call succeeds and
    shows none of her rows. *)
Lemma listHomeworkJobs_lists_own_witness :
  exists items,
    listHomeworkJobs (Some (ListHomeworkJobs.mkFields (Some 1)))
      (signed_in "bob") world4
    = (Ok (mkSuccess true (mkListData items (List.length items))), world4)
    /\ forall j, In j items -> HomeworkJob.userId j = Some "bob".
Proof.
  destruct (listHomeworkJobs_lists_own
              (Some (ListHomeworkJobs.mkFields (Some 1)))
              (signed_in "bob") (App.mkUser "bob") world4 eq_refl)
    as (items & Hrun & Hitems).
  exists items. split; [exact Hrun|].
  intros j Hj. apply Hitems in Hj. destruct Hj as (_ & Hu & _). exact Hu.
Defined.

(** The four calls that lead to [world4]. *)
Definition calls4 : list (Call * ActionAPIContext) :=
  [ (CreateHomeworkRequestCall (ask "What is 2+2?"), signed_in "alice");
    (CreateHomeworkRequestCall (ask "And 3+3?"), signed_in "alice");
    (AddHomeworkResponseCall (answer 1 (Some true)), signed_in "alice");
    (AddHomeworkResponseCall (answer 1 (Some true)), signed_in "alice") ].

Lemma served_database_is_consistent_witness :
  keys_unique (db (serve calls4 (mkWorld empty_db (fun n => 1000 + Z.of_nat n) 0)))
  /\ linked (db (serve calls4 (mkWorld empty_db (fun n => 1000 + Z.of_nat n) 0))).
Proof.
  exact (served_database_is_consistent calls4 (fun n => 1000 + Z.of_nat n) 0%nat).
Defined.

(** Retitled, request 2 is still alice's request 2, created when it was. *)
Lemma rows_are_never_deleted_witness :
  exists r',
    In r' (requests
             (db (snd (server (UpdateHomeworkRequestCall (retitle 2 "Sums"))
                              (signed_in "alice") world4))))
    /\ HomeworkRequest.id r' = 2
    /\ HomeworkRequest.userId r' = "alice"
    /\ HomeworkRequest.createdAt r' = 1001.
Proof.
  apply (proj1 (rows_are_never_deleted
                  (UpdateHomeworkRequestCall (retitle 2 "Sums"))
                  (signed_in "alice") world4)
           (HomeworkRequest.mk 2 "alice" (Some "Math") None None None
              "And 3+3?" None open 1001 1001)).
  right. left. reflexivity.
Defined.
